(** * go-stackoverflow-questions: the rate-limited page loop of main.go

    A shallow embedding of [main.go]: the data model of the search API,
    [request], [RLHTTPClient.Do] and [GetTop5Questions], followed by the
    properties of the page loop and of its top-5 merge.

    What lies outside the repository is represented as follows.
    - [sort.Slice] is an interface ([SortSlice]) carrying the contract of the
      Go library: the result is a permutation of the input and no element is
      [less] than one placed before it.  The order among ties is left open,
      as in Go.  [insertion] is one instance.
    - The network ([http.DefaultClient]) is a function from the request to
      either a transport failure or a response; a response body is
      represented by what [gzip.NewReader] and [json.Decoder.Decode] make of
      it.
    - Go's [int] is taken to be 64 bits wide. *)

From Stdlib Require Import ZArith Lia.
From stdpp Require Import base list gmap strings pretty sorting.

Local Open Scope string_scope.
Local Open Scope list_scope.

(** ** Data model *)

(** [type Items struct]. *)
Record Items := mkItems {
  IsAnswered : bool;
  ViewCount : Z;
  CreationDate : Z;
  QuestionId : Z;
  Link : string
}.

(** [type QuestionResponse struct].  The field [Items []*Items] is a slice of
    pointers: [None] stands for a nil pointer (a JSON [null] entry). *)
Record QuestionResponse := mkQuestionResponse {
  qrItems : list (option Items);
  HasMore : bool;
  QuotaMax : Z;
  QuotaRemaining : Z
}.

(** Go's [error] values, by the call that produced them: the limiter (a
    cancelled wait, or a wait it refuses), the network round trip, and the
    two decoders. *)
Inductive error :=
| RateLimitCancelled
| RateLimitRefused (msg : string)
| TransportError (msg : string)
| DecodeError (msg : string).

(** ** Machine integers *)

Definition int_min : Z := - 2 ^ 63.
Definition int_max : Z := 2 ^ 63 - 1.

(** Two's complement wrap-around of a 64-bit [int]. *)
Definition int_wrap (z : Z) : Z := ((z + 2 ^ 63) mod 2 ^ 64 - 2 ^ 63)%Z.

Definition int_add (x y : Z) : Z := int_wrap (x + y).

Definition strconv_Itoa (n : Z) : string := pretty n.

(** [strconv.FormatInt(n, 10)]. *)
Definition strconv_FormatInt10 (n : Z) : string := pretty n.

(** ** The HTTP layer *)

(** The part of [*http.Request] that [request] fills in. *)
Record Request := mkRequest {
  Method : string;
  URL : string;
  Query : gmap string string;
  Header : gmap string string
}.

(** A response body, by what the two decoding layers make of it:
    [gzip.NewReader] rejects [NotGzip]; on [Gzip d] it succeeds and
    [Decode] then fails when [d] is [inl] and yields the page when [d] is
    [inr]. *)
Inductive Body :=
| NotGzip (msg : string)
| Gzip (d : string + QuestionResponse).

Record Response := mkResponse {
  StatusCode : Z;
  RespBody : Body
}.

(** [*http.Client]: its [Do] either fails or hands back a response. *)
Definition http_Client : Type := Request → string + Response.

Definition gzip_NewReader (b : Body) : error + (string + QuestionResponse) :=
  match b with
  | NotGzip msg => inl (DecodeError msg)
  | Gzip d => inr d
  end.

Definition json_Decode (reader : string + QuestionResponse)
  : error + QuestionResponse :=
  match reader with
  | inl msg => inl (DecodeError msg)
  | inr qr => inr qr
  end.

(** ** The rate limiter *)

Inductive Context :=
| Background
| WithCancel (fired : bool).

Definition ctx_fired (ctx : Context) : bool :=
  match ctx with
  | Background => false
  | WithCancel fired => fired
  end.

(** [rate.Limiter] as built by [rate.NewLimiter(rate.Every(d), b)]. *)
Record Limiter := mkLimiter {
  every_seconds : Z;
  burst : Z
}.

Definition rate_NewLimiter (every b : Z) : Limiter := mkLimiter every b.

(** Modelled from the spec: [rate.Limiter.Wait] belongs to
    golang.org/x/time/rate, which is not part of the sources.  The
    RateLimiter contract reads [acquire(cancellationSignal) -> success |
    Cancelled]: the call blocks until a token is available or the signal
    fires, and fails with [Cancelled] in the latter case.  The library
    documents one more failure, which comes first: a wait for more events
    than the burst holds is refused, and [Wait] asks for one event.  How
    long the call blocks is not represented; [None] is Go's nil error. *)
Definition Wait (lim : Limiter) (ctx : Context) : option error :=
  if (burst lim <? 1)%Z then Some (RateLimitRefused "exceeds limiter's burst")
  else if ctx_fired ctx then Some RateLimitCancelled
  else None.

(** [type RLHTTPClient struct]. *)
Record RLHTTPClient := mkRLHTTPClient {
  client : http_Client;
  Ratelimiter : Limiter
}.

(** ** sort.Slice *)

(** [less] is a strict weak ordering, as [sort.Slice] asks of its caller. *)
Record StrictWeak {A} (less : A → A → bool) : Prop := {
  sw_asym : ∀ x y, less x y = true → less y x = false;
  sw_trans : ∀ x y z, less y x = false → less z y = false → less z x = false
}.

(** No later element is [less] than an earlier one. *)
Definition ordered_by {A} (less : A → A → bool) : list A → Prop :=
  StronglySorted (λ x y, less y x = false).

Class SortSlice := {
  sort_Slice : ∀ {A : Type}, (A → A → bool) → list A → list A;
  sort_Slice_perm : ∀ A (less : A → A → bool) (l : list A),
    sort_Slice less l ≡ₚ l;
  sort_Slice_ordered : ∀ A (less : A → A → bool) (l : list A),
    StrictWeak less → ordered_by less (sort_Slice less l)
}.

(** Insertion sort as the library runs it on short slices: element [i] is
    swapped towards the front while it is [less] than its left neighbour.
    [sink x rev_prefix] takes the sorted prefix back to front. *)
Fixpoint sink {A} (less : A → A → bool) (x : A) (rev_prefix : list A) : list A :=
  match rev_prefix with
  | [] => [x]
  | y :: rest => if less x y then y :: sink less x rest else x :: y :: rest
  end.

Definition insertionSort {A} (less : A → A → bool) (l : list A) : list A :=
  reverse (fold_left (λ acc x, sink less x acc) l []).

(** ** Program state *)

(** The memory the calls share, with three ghost fields. [top5] is the slice
    behind the pointer handed to [Do]; [params] is the one map that
    [GetTop5Questions] builds and every [request] writes to.  [sent] records
    the requests given to the network, oldest first; [depth] counts the
    activations of [Do] that have not returned yet and [peak] is the largest
    value [depth] has had. *)
Record State := mkState {
  top5 : list Items;
  params : gmap string string;
  sent : list Request;
  depth : nat;
  peak : nat
}.

Inductive outcome (A : Type) :=
| Ok (a : A)
| Err (e : error)
| Panic
| OutOfFuel.
Arguments Ok {A} a.
Arguments Err {A} e.
Arguments Panic {A}.
Arguments OutOfFuel {A}.

Definition M (A : Type) : Type := State → State * outcome A.

Definition ret {A} (a : A) : M A := λ s, (s, Ok a).

Definition bind {A B} (m : M A) (k : A → M B) : M B :=
  λ s, match m s with
       | (s', Ok a) => k a s'
       | (s', Err e) => (s', Err e)
       | (s', Panic) => (s', Panic)
       | (s', OutOfFuel) => (s', OutOfFuel)
       end.

Definition throw {A} (e : error) : M A := λ s, (s, Err e).
Definition panic {A} : M A := λ s, (s, Panic).
Definition out_of_fuel {A} : M A := λ s, (s, OutOfFuel).
Definition gets {A} (f : State → A) : M A := λ s, (s, Ok (f s)).
Definition modify (f : State → State) : M unit := λ s, (f s, Ok tt).

(** [if err != nil { return err }] on a call that yields a value. *)
Definition or_return {A} (r : error + A) : M A :=
  match r with
  | inl e => throw e
  | inr a => ret a
  end.

Declare Scope go_scope.
Delimit Scope go_scope with go.
Notation "'let*' x ':=' c1 'in' c2" := (bind c1 (λ x, c2))
  (at level 10, x name, c1 at level 100, c2 at level 200) : go_scope.
Notation "c1 ';;' c2" := (bind c1 (λ _, c2))
  (at level 100, c2 at level 200, right associativity) : go_scope.

Definition set_top5 (l : list Items) (s : State) : State :=
  mkState l (params s) (sent s) (depth s) (peak s).
Definition set_params (p : gmap string string) (s : State) : State :=
  mkState (top5 s) p (sent s) (depth s) (peak s).
Definition record_sent (r : Request) (s : State) : State :=
  mkState (top5 s) (params s) (sent s ++ [r]) (depth s) (peak s).
Definition enter (s : State) : State :=
  mkState (top5 s) (params s) (sent s) (S (depth s)) (Nat.max (peak s) (S (depth s))).
Definition leave (s : State) : State :=
  mkState (top5 s) (params s) (sent s) (Nat.pred (depth s)) (peak s).

(** One activation of a function: the frame is there from the call until
    the return, whichever way the body ends. *)
Definition frame {A} (body : M A) : M A :=
  λ s, let '(s', r) := body (enter s) in (leave s', r).

(** ** main.go *)

(** [func request], for a URL that parses.  [http.NewRequest] fails only on
    a method or a URL that does not parse; the method is [http.MethodGet]
    and [Do] is called with one URL, [search_url], which parses.  The
    early return of lines 150-152 and 61-63 is therefore not represented,
    and what is stated of a request that goes out is stated for
    [search_url].  [params["page"]] is written into the shared map,
    whose entries are then added to the query: [Query] holds them, next to
    the three that [URL] carries itself. *)
Definition request (url : string) (page : Z) : M Request :=
  (modify (λ s, set_params (<["page" := strconv_Itoa page]> (params s)) s) ;;
   let* q := gets params in
   ret (mkRequest "GET" url q
          (<["Content-Type" := "application/json"]>
             (<["Accept-Encoding" := "gzip"]> ∅))))%go.

(** [c.client.Do(req)]. *)
Definition client_Do (c : RLHTTPClient) (req : Request) : M Response :=
  (modify (record_sent req) ;;
   match client c req with
   | inl msg => throw (TransportError msg)
   | inr resp => ret resp
   end)%go.

(** Lines 84-90: the loop that keeps the items whose [IsAnswered] is false.
    Reading a field through a nil pointer panics: [None]. *)
Fixpoint unanswered (items : list Items) (l : list (option Items))
  : option (list Items) :=
  match l with
  | [] => Some items
  | None :: _ => None
  | Some item :: rest =>
      if negb (IsAnswered item)
      then unanswered (items ++ [item]) rest
      else unanswered items rest
  end.

(** A nil dereference inside a computed value. *)
Definition deref {A} (o : option A) : M A :=
  match o with
  | None => panic
  | Some a => ret a
  end.

(** The closure given to [sort.Slice]. *)
Definition by_views (a b : Items) : bool := (ViewCount a >? ViewCount b)%Z.

Section Program.
Context `{SortSlice}.

(** [func (c *RLHTTPClient) Do].  One unit of [fuel] per activation; the
    two deferred [Close] calls have no effect on this memory and run when
    the [frame] ends. *)
Fixpoint Do (fuel : nat) (c : RLHTTPClient) (url : string) (page : Z) : M unit :=
  match fuel with
  | O => out_of_fuel
  | S fuel =>
      frame
        (let ctx := Background in
         match Wait (Ratelimiter c) ctx with
         | Some err => throw err
         | None =>
             let* req := request url page in
             let* resp := client_Do c req in
             let* reader := or_return (gzip_NewReader (RespBody resp)) in
             let* qr := or_return (json_Decode reader) in
             let* items := deref (unanswered [] (qrItems qr)) in
             let* top := gets top5 in
             let items := items ++ top in
             let items := sort_Slice by_views items in
             (if (5 <? length items)%nat
              then modify (set_top5 (take 5 items))
              else ret tt) ;;
             if HasMore qr
             then Do fuel c url (int_add page 1)
             else ret tt
         end)%go
  end.

(** [func NewClient]; [dflt] is [http.DefaultClient]. *)
Definition NewClient (dflt : http_Client) (rl : Limiter) : RLHTTPClient :=
  mkRLHTTPClient dflt rl.

Definition search_url : string :=
  "https://api.stackexchange.com/2.3/search?order=desc&sort=activity&site=stackoverflow".

Definition year_seconds : Z := 24 * 3600 * 365.

(** The map of [GetTop5Questions] just before [Do] is called; [t1] and
    [t2] are the Unix seconds of the two [time.Now()] readings. *)
Definition initial_params (t1 t2 : Z) (inTitle tagged : string)
  : gmap string string :=
  let params : gmap string string := <["intitle" := inTitle]> ∅ in
  let params := if decide (tagged = "") then params
                else <["tagged" := tagged]> params in
  let params := <["pagesize" := strconv_Itoa 100]> params in
  let params := <["fromdate" := strconv_FormatInt10 (t1 - year_seconds)]> params in
  <["todate" := strconv_FormatInt10 t2]> params.

Definition initial_state (t1 t2 : Z) (inTitle tagged : string) : State :=
  mkState [] (initial_params t1 t2 inTitle tagged) [] 0 0.

(** [func GetTop5Questions].  The result stands for the JSON array that
    [json.Marshal(top5)] writes: the items in slice order
    ([json.Marshal] does not fail on this type). The final memory is
    returned next to it for the ghost fields. *)
Definition GetTop5Questions (fuel : nat) (dflt : http_Client) (t1 t2 : Z)
    (inTitle tagged : string) : State * outcome (list Items) :=
  let rl := rate_NewLimiter 1 30 in
  let c := NewClient dflt rl in
  let url := search_url in
  let page := 1%Z in
  match Do fuel c url page (initial_state t1 t2 inTitle tagged) with
  | (s, Ok _) => (s, Ok (top5 s))
  | (s, Err err) => (s, Err err)
  | (s, Panic) => (s, Panic)
  | (s, OutOfFuel) => (s, OutOfFuel)
  end.

End Program.

(** ** Vocabulary of the statements *)

(** The value of [*top5] after lines 92-100, from the unanswered items of
    the page and the value before. *)
Definition merge `{SortSlice} (items top : list Items) : list Items :=
  let items := sort_Slice by_views (items ++ top) in
  if (5 <? length items)%nat then take 5 items else top.

Definition request_header : gmap string string :=
  <["Content-Type" := "application/json"]> (<["Accept-Encoding" := "gzip"]> ∅).

(** The request [Do] sends for [page] when the shared map agrees with
    [base] on every key but ["page"]. *)
Definition page_request (url : string) (base : gmap string string) (page : Z)
  : Request :=
  mkRequest "GET" url (<["page" := strconv_Itoa page]> base) request_header.

(** Lines 65-82 as one value: what the network and the two decoders make of
    a request. *)
Definition fetched (c : RLHTTPClient) (req : Request) : error + QuestionResponse :=
  match client c req with
  | inl msg => inl (TransportError msg)
  | inr resp =>
      match gzip_NewReader (RespBody resp) with
      | inl e => inl e
      | inr reader => json_Decode reader
      end
  end.

(** Lines 65-90: the unanswered items of the page and its [has_more]. *)
Definition served (c : RLHTTPClient) (req : Request) : outcome (list Items * bool) :=
  match fetched c req with
  | inl e => Err e
  | inr qr =>
      match unanswered [] (qrItems qr) with
      | None => Panic
      | Some items => Ok (items, HasMore qr)
      end
  end.

(** The page number of the activation [k] calls below the one for [page]. *)
Fixpoint page_from (page : Z) (k : nat) : Z :=
  match k with
  | O => page
  | S k => page_from (int_add page 1) k
  end.

(** The page numbers of [n] consecutive activations, the first for [page]. *)
Fixpoint pages_from (page : Z) (n : nat) : list Z :=
  match n with
  | O => []
  | S n => page :: pages_from (int_add page 1) n
  end.

(** How an activation ends on what it was served, when it does not call
    itself again. *)
Definition ending (o : outcome (list Items * bool)) : outcome unit :=
  match o with
  | Ok _ => Ok tt
  | Err e => Err e
  | Panic => Panic
  | OutOfFuel => OutOfFuel
  end.

(** Two maps that differ at most at the key ["page"]. *)
Definition same_but_page (m base : gmap string string) : Prop :=
  ∀ v, <["page" := v]> m = <["page" := v]> base.

Definition unanswered_only (l : list Items) : Prop :=
  Forall (λ item, IsAnswered item = false) l.

Definition views (l : list Items) : list Z := ViewCount <$> l.

(** Sorted by [view_count], largest first. *)
Definition descending (l : list Items) : Prop :=
  StronglySorted (λ a b, (ViewCount b ≤ ViewCount a)%Z) l.

Section Vocabulary.
Context `{SortSlice} (c : RLHTTPClient) (url : string)
        (base : gmap string string).

(** The memory once the request for [page] has gone out. *)
Definition after_send (page : Z) (s : State) : State :=
  record_sent (page_request url base page)
    (set_params (<["page" := strconv_Itoa page]> base) (enter s)).

(** [*top5] after the first [n] pages from [page] on, as far as they are
    served. *)
Fixpoint top_after (n : nat) (page : Z) (top : list Items) : list Items :=
  match n with
  | O => top
  | S n =>
      match served c (page_request url base page) with
      | Ok (items, _) => top_after n (int_add page 1) (merge items top)
      | _ => top
      end
  end.

(** The first [n] pages from [page] on are served and each announces
    another. *)
Definition all_more (page : Z) (n : nat) : Prop :=
  ∀ k, k < n →
    ∃ items, served c (page_request url base (page_from page k)) = Ok (items, true).

(** The page [n] calls further is not one of those. *)
Definition stops_at (page : Z) (n : nat) : Prop :=
  ∀ items, served c (page_request url base (page_from page n)) ≠ Ok (items, true).

End Vocabulary.

(** The client that [GetTop5Questions] builds. *)
Definition api_client (dflt : http_Client) : RLHTTPClient :=
  NewClient dflt (rate_NewLimiter 1 30).

(** What page [page] of the API holds in a run of [GetTop5Questions]: its
    unanswered items and its [has_more], or the way the fetch fails. *)
Definition api_page (dflt : http_Client) (t1 t2 : Z) (inTitle tagged : string)
    (page : Z) : outcome (list Items * bool) :=
  served (api_client dflt)
    (page_request search_url (initial_params t1 t2 inTitle tagged) page).

(** In a run of [GetTop5Questions] the pages from 1 up to, but without, the
    one [n] calls down are served and announce another. *)
Definition more_until (dflt : http_Client) (t1 t2 : Z) (inTitle tagged : string)
    (n : nat) : Prop :=
  ∀ k, k < n →
    ∃ items, api_page dflt t1 t2 inTitle tagged (page_from 1 k) = Ok (items, true).

(** The slice is empty or full. *)
Definition zero_or_five (l : list Items) : Prop := length l = 0 ∨ length l = 5.

(** The slice holds at most five items, the most viewed first. *)
Definition within_capacity (l : list Items) : Prop :=
  (length l ≤ 5)%nat ∧ descending l.

(** ** Scenarios *)

Definition question (answered : bool) (view_count : Z) : Items :=
  mkItems answered view_count 1700000000 view_count "https://stackoverflow.com/q".

(** A well-formed response with the given status whose items are unanswered
    questions with these view counts. *)
Definition page_with (status : Z) (view_counts : list Z) (more : bool)
  : string + Response :=
  inr (mkResponse status
         (Gzip (inr (mkQuestionResponse (Some ∘ question false <$> view_counts)
                       more 300 299)))).

(** A server by the page number of the request. *)
Definition serving (pages : string → string + Response) : http_Client :=
  λ req, match Query req !! "page" with
         | Some p => pages p
         | None => inl "no page asked for"
         end.

Definition one_short_page : http_Client :=
  serving (λ p, if decide (p = "1") then page_with 200 [1; 2; 3]%Z false
                else inl "no such page").

Definition two_pages : http_Client :=
  serving (λ p, if decide (p = "1") then page_with 200 [10; 50; 5; 20; 90; 3; 40]%Z true
                else if decide (p = "2") then page_with 200 [200; 1]%Z false
                else inl "no such page").

(** Seven items, then a response that is not gzip. *)
Definition second_page_garbled : http_Client :=
  serving (λ p, if decide (p = "1") then page_with 200 [10; 50; 5; 20; 90; 3; 40]%Z true
                else if decide (p = "2") then inr (mkResponse 200 (NotGzip "gzip: invalid header"))
                else inl "no such page").

(** Seven items, then no connection. *)
Definition second_page_unreachable : http_Client :=
  serving (λ p, if decide (p = "1") then page_with 200 [10; 50; 5; 20; 90; 3; 40]%Z true
                else inl "connection refused").

(** Every page answers 400 with a well-formed body of six items. *)
Definition bad_request_with_items : http_Client :=
  serving (λ _, page_with 400 [6; 5; 4; 3; 2; 1]%Z false).

(** One page where answered and unanswered questions alternate. *)
Definition mixed_page : http_Client :=
  serving (λ _, inr (mkResponse 200
                       (Gzip (inr (mkQuestionResponse
                                     [Some (question true 900); Some (question false 10);
                                      Some (question true 800); Some (question false 20);
                                      Some (question false 30); Some (question false 40);
                                      Some (question false 50); Some (question false 60)]
                                     false 300 299))))).

Definition three_pages : http_Client :=
  serving (λ p, if decide (p = "1") then page_with 200 [1; 2]%Z true
                else if decide (p = "2") then page_with 200 [3; 4]%Z true
                else if decide (p = "3") then page_with 200 [5; 6]%Z false
                else inl "no such page").

(** A client whose limiter has no burst at all. *)
Definition no_burst_client : RLHTTPClient :=
  mkRLHTTPClient two_pages (rate_NewLimiter 1 0).

(** ** The rest of main.go *)

(** [func main]: the run for the title "git" and the tag "go".  An error
    becomes a panic; otherwise the array is printed, and is the result
    here. *)
Definition main `{SortSlice} (fuel : nat) (dflt : http_Client) (t1 t2 : Z)
  : State * outcome (list Items) :=
  match GetTop5Questions fuel dflt t1 t2 "git" "go" with
  | (s, Ok b) => (s, Ok b)
  | (s, Err err) => (s, Panic)
  | (s, Panic) => (s, Panic)
  | (s, OutOfFuel) => (s, OutOfFuel)
  end.

(** [url.Values.Add]: the value is appended to those the key has. *)
Definition Values_Add (key value : string) (v : gmap string (list string))
  : gmap string (list string) :=
  <[key := default [] (v !! key) ++ [value]]> v.

(** Lines 157-160 of [request]: [q.Add(k, v)] for the entries of [params],
    in the order [entries] in which [range] happens to visit them. *)
Definition add_params (entries : list (string * string))
    (q : gmap string (list string)) : gmap string (list string) :=
  foldl (λ q kv, Values_Add kv.1 kv.2 q) q entries.

(** [req.URL.Query()] for [search_url]: the three parameters it carries. *)
Definition search_query : gmap string (list string) :=
  <["order" := ["desc"]]> (<["sort" := ["activity"]]>
    (<["site" := ["stackoverflow"]]> ∅)).

(** ** Vocabulary of the further statements *)

(** The unanswered items of a page, none when it is not served. *)
Definition page_items (c : RLHTTPClient) (url : string)
    (base : gmap string string) (page : Z) : list Items :=
  match served c (page_request url base page) with
  | Ok (items, _) => items
  | _ => []
  end.

(** The unanswered items of [n] consecutive pages, the first being [page]. *)
Fixpoint items_from (c : RLHTTPClient) (url : string)
    (base : gmap string string) (n : nat) (page : Z) : list Items :=
  match n with
  | O => []
  | S n => page_items c url base page ++ items_from c url base n (int_add page 1)
  end.

(** The first [n] pages from [page] on are served. *)
Definition all_served (c : RLHTTPClient) (url : string)
    (base : gmap string string) (page : Z) (n : nat) : Prop :=
  ∀ k, k < n →
    ∃ items more,
      served c (page_request url base (page_from page k)) = Ok (items, more).

(** [res] is a choice of five most viewed items of [every]: five of them,
    the most viewed first, none of the others having more views than one
    of the five. *)
Definition top_five (res every : list Items) : Prop :=
  length res = 5 ∧ descending res
  ∧ ∃ rest, res ++ rest ≡ₚ every
            ∧ ∀ x y, x ∈ res → y ∈ rest → (ViewCount y ≤ ViewCount x)%Z.

(** The unanswered items of page [page_from 1 k] in a run of
    [GetTop5Questions]. *)
Definition api_items (dflt : http_Client) (t1 t2 : Z) (inTitle tagged : string)
    (k : nat) : list Items :=
  page_items (api_client dflt) search_url
    (initial_params t1 t2 inTitle tagged) (page_from 1 k).

(** Every page announces another, for ever. *)
Definition endless : http_Client :=
  serving (λ _, page_with 200 [7]%Z true).

(** A page with a JSON [null] among its items. *)
Definition null_item_page : http_Client :=
  serving (λ _, inr (mkResponse 200
                       (Gzip (inr (mkQuestionResponse
                                     [Some (question false 1); None]
                                     false 300 299))))).

(** Two items first, six on the last page. *)
Definition short_then_long : http_Client :=
  serving (λ p, if decide (p = "1") then page_with 200 [100; 200]%Z true
                else if decide (p = "2") then page_with 200 [10; 50; 5; 20; 90; 3]%Z false
                else inl "no such page").

(** Six questions with the same view count, told apart by their ids. *)
Definition tied_page : http_Client :=
  serving (λ _, inr (mkResponse 200
                       (Gzip (inr (mkQuestionResponse
                                     ((λ id, Some (mkItems false 10 1700000000 id ""))
                                        <$> [1; 2; 3; 4; 5; 6]%Z)
                                     false 300 299))))).

(** Insertion sort from the other end of the slice: sorted as well, with
    ties the other way round. *)
Definition insertionSort_reversed {A} (less : A → A → bool) (l : list A) : list A :=
  insertionSort less (reverse l).

(** The six items of [bad_request_with_items] with status 200, another
    quota and an answered question among them. *)
Definition same_items_other_envelope : http_Client :=
  serving (λ _, inr (mkResponse 200
                       (Gzip (inr (mkQuestionResponse
                                     (Some (question true 999)
                                        :: (Some ∘ question false <$> [6; 5; 4; 3; 2; 1]%Z))
                                     false 10000 1))))).

(** Two servers that answer every request alike but for the status code:
    the same failure of the round trip, or responses with the same body. *)
Definition same_but_status (d1 d2 : http_Client) : Prop :=
  ∀ req, match d1 req, d2 req with
         | inl msg1, inl msg2 => msg1 = msg2
         | inr resp1, inr resp2 => RespBody resp1 = RespBody resp2
         | _, _ => False
         end.

(** [bad_request_with_items] with the status 200. *)
Definition ok_with_items : http_Client :=
  serving (λ _, page_with 200 [6; 5; 4; 3; 2; 1]%Z false).

(** ** Sorting *)

Lemma by_views_strict_weak : StrictWeak by_views.
Proof.
  split; unfold by_views; intros; rewrite ?Z.gtb_ltb, ?Z.ltb_lt, ?Z.ltb_ge in *; lia.
Qed.

Lemma Zgtb_strict_weak : StrictWeak Z.gtb.
Proof.
  split; intros; rewrite ?Z.gtb_ltb, ?Z.ltb_lt, ?Z.ltb_ge in *; lia.
Qed.

Section Insertion.
Context {A : Type} (less : A → A → bool).

Lemma sink_perm x acc : sink less x acc ≡ₚ x :: acc.
Proof.
  induction acc as [|y acc IH]; simpl; [done|].
  destruct (less x y); [|done].
  rewrite IH. apply Permutation_swap.
Qed.

Lemma sink_elem z x acc : z ∈ sink less x acc → z = x ∨ z ∈ acc.
Proof. rewrite sink_perm. by intros [->|?]%elem_of_cons; [left|right]. Qed.

(** The prefix is kept back to front, so it is sorted the other way. *)
Lemma sink_sorted x acc :
  StrictWeak less →
  StronglySorted (λ a b, less a b = false) acc →
  StronglySorted (λ a b, less a b = false) (sink less x acc).
Proof.
  intros [Hasym Htrans]. induction 1 as [|y acc Hs IH Hy]; simpl.
  - repeat constructor.
  - destruct (less x y) eqn:Hxy.
    + constructor; [done|]. apply Forall_forall. intros z Hz.
      apply sink_elem in Hz as [->|Hz]; [by apply Hasym|].
      by eapply Forall_forall in Hy.
    + constructor; [by constructor|]. constructor; [done|].
      apply Forall_forall. intros z Hz. eapply Forall_forall in Hy; [|done].
      by eapply Htrans.
Qed.

Lemma insertion_fold_perm l acc :
  fold_left (λ acc x, sink less x acc) l acc ≡ₚ l ++ acc.
Proof.
  revert acc. induction l as [|x l IH]; intros acc; simpl; [done|].
  rewrite IH, sink_perm. by rewrite Permutation_middle.
Qed.

Lemma insertion_fold_sorted l acc :
  StrictWeak less →
  StronglySorted (λ a b, less a b = false) acc →
  StronglySorted (λ a b, less a b = false)
    (fold_left (λ acc x, sink less x acc) l acc).
Proof.
  intros Hsw. revert acc. induction l as [|x l IH]; intros acc Hacc; simpl; [done|].
  by apply IH, sink_sorted.
Qed.

Lemma insertionSort_perm l : insertionSort less l ≡ₚ l.
Proof.
  unfold insertionSort. rewrite reverse_Permutation.
  rewrite insertion_fold_perm. by rewrite app_nil_r.
Qed.

Lemma sorted_rev (R : relation A) l :
  StronglySorted (flip R) l → StronglySorted R (reverse l).
Proof.
  induction 1 as [|x l Hs IH Hx]; [constructor|].
  rewrite reverse_cons. apply StronglySorted_app_2; [|done|repeat constructor].
  intros a b Ha Hb. apply list_elem_of_singleton in Hb as ->.
  rewrite elem_of_reverse in Ha. rewrite Forall_forall in Hx. exact (Hx a Ha).
Qed.

Lemma insertionSort_ordered l :
  StrictWeak less → ordered_by less (insertionSort less l).
Proof.
  intros Hsw. unfold ordered_by, insertionSort. apply sorted_rev.
  apply insertion_fold_sorted; [done|constructor].
Qed.
End Insertion.

(** Insertion sort meets the contract of [sort.Slice]. *)
Definition insertion : SortSlice :=
  {| sort_Slice := @insertionSort;
     sort_Slice_perm := @insertionSort_perm;
     sort_Slice_ordered := @insertionSort_ordered |}.

Lemma insertionSort_reversed_perm {A} (less : A → A → bool) l :
  insertionSort_reversed less l ≡ₚ l.
Proof. unfold insertionSort_reversed. by rewrite insertionSort_perm, reverse_Permutation. Qed.

(** A second sort that meets the contract of [sort.Slice]. *)
Definition reversing : SortSlice :=
  {| sort_Slice := @insertionSort_reversed;
     sort_Slice_perm := @insertionSort_reversed_perm;
     sort_Slice_ordered := λ A less l, insertionSort_ordered less (reverse l) |}.

(** ** One activation of Do *)

(** Two memories written out field by field, equal up to arithmetic on the
    ghost counters. *)
Lemma memory_eq_fields t t' p p' q q' d d' k k' :
  t = t' → p = p' → q = q' → d = d' → k = k' →
  mkState t p q d k = mkState t' p' q' d' k'.
Proof. by intros -> -> -> -> ->. Qed.

Ltac memory_eq :=
  unfold leave, set_top5, record_sent, set_params, enter;
  cbn [top5 params sent depth peak Nat.pred];
  try (apply (f_equal2 pair); [|done]);
  apply memory_eq_fields; try done; try lia.

Lemma same_but_page_refl base : same_but_page base base.
Proof. done. Qed.

Lemma same_but_page_insert m base v :
  same_but_page m base → same_but_page (<["page" := v]> m) base.
Proof. intros Hm w. by rewrite insert_insert_eq. Qed.

Section Run.
Context `{SortSlice} (c : RLHTTPClient) (url : string)
        (base : gmap string string).
Hypothesis burst_c : (1 ≤ burst (Ratelimiter c))%Z.

Local Abbreviation after_send := (after_send url base).
Local Abbreviation top_after := (top_after c url base).
Local Abbreviation all_more := (all_more c url base).
Local Abbreviation stops_at := (stops_at c url base).

Lemma Do_S fuel page s :
  same_but_page (params s) base →
  Do (S fuel) c url page s =
    let s1 := after_send page s in
    match served c (page_request url base page) with
    | Ok (items, more) =>
        let s2 := set_top5 (merge items (top5 s)) s1 in
        if more
        then let '(s3, r) := Do fuel c url (int_add page 1) s2 in (leave s3, r)
        else (leave s2, Ok tt)
    | Err e => (leave s1, Err e)
    | Panic => (leave s1, Panic)
    | OutOfFuel => (leave s1, OutOfFuel)
    end.
Proof.
  intros Hp. destruct s as [top prm snt d pk]. simpl in Hp.
  unfold after_send, served, fetched, page_request, merge.
  cbn [Do]. unfold Wait. rewrite (proj2 (Z.ltb_ge _ _) burst_c).
  unfold frame, ctx_fired, request, client_Do, bind, modify, gets, ret, throw. cbn [params set_params enter top5 sent depth peak].
  rewrite (Hp (strconv_Itoa page)). fold request_header.
  cbn [record_sent top5 params sent depth peak].
  destruct (client c _) as [msg|resp]; [done|].
  destruct (RespBody resp) as [msg|[msg|qr]]; cbn; [done..|].
  destruct (unanswered [] (qrItems qr)) as [items|]; cbn; [|done].
  destruct (length (sort_Slice by_views (items ++ top))) as [|[|[|[|[|[|?]]]]]];
    destruct (HasMore qr); done.
Qed.

Lemma served_Ok req items more :
  served c req = Ok (items, more) →
  ∃ qr, fetched c req = inr qr ∧ unanswered [] (qrItems qr) = Some items
        ∧ HasMore qr = more.
Proof.
  unfold served. destruct (fetched c req) as [e|qr]; [done|].
  destruct (unanswered [] (qrItems qr)) as [l|] eqn:Hl; [|done].
  intros [= <- <-]. by exists qr.
Qed.

Lemma served_not_out_of_fuel req : served c req ≠ OutOfFuel.
Proof.
  unfold served. destruct (fetched c req) as [e|qr]; [done|].
  by destruct (unanswered [] (qrItems qr)).
Qed.

Lemma all_more_S page n :
  all_more page (S n) ↔
  (∃ items, served c (page_request url base page) = Ok (items, true))
  ∧ all_more (int_add page 1) n.
Proof.
  split.
  - intros Hall. split; [apply (Hall 0); lia|].
    intros k Hk. apply (Hall (S k)). lia.
  - intros [H0 Hall] [|k] Hk; [done|]. apply Hall. lia.
Qed.

(** A run of [n] pages that announce another and one that ends the run:
    the result and the whole memory afterwards. *)
Lemma Do_run n : ∀ page s fuel,
  same_but_page (params s) base →
  all_more page n → stops_at page n → n < fuel →
  Do fuel c url page s =
    (mkState (top_after (S n) page (top5 s))
             (<["page" := strconv_Itoa (page_from page n)]> base)
             (sent s ++ (page_request url base <$> pages_from page (S n)))
             (depth s)
             (Nat.max (peak s) (depth s + S n)),
     ending (served c (page_request url base (page_from page n)))).
Proof.
  induction n as [|n IH]; intros page s [|fuel] Hp Hall Hstop Hlt; try lia.
  - rewrite Do_S by done. cbn [page_from pages_from top_after fmap list_fmap].
    specialize (Hstop). unfold stops_at in Hstop. cbn [page_from] in Hstop.
    destruct (served c (page_request url base page)) as [[items more]| | |] eqn:Hs;
      cbn [ending]; unfold after_send; destruct s; [|by memory_eq..].
    destruct more; [by destruct (Hstop items)|]. by memory_eq.
  - rewrite Do_S by done. apply all_more_S in Hall as [[items Hs] Hall].
    rewrite Hs. cbn zeta.
    rewrite (IH (int_add page 1)); [| |done|done|lia].
    + cbn [page_from pages_from top_after fmap list_fmap]. rewrite Hs.
      unfold after_send. destruct s; memory_eq.
      by rewrite <- app_assoc.
    + unfold after_send. destruct s; cbn. by apply same_but_page_insert, same_but_page_refl.
Qed.

(** Whatever a run ends with other than exhausted fuel, it ended after
    finitely many pages, the last of which stopped it. *)
Lemma Do_ends fuel : ∀ page s s' r,
  same_but_page (params s) base →
  Do fuel c url page s = (s', r) → r ≠ OutOfFuel →
  ∃ n, n < fuel ∧ all_more page n ∧ stops_at page n.
Proof.
  induction fuel as [|fuel IH]; intros page s s' r Hp Hdo Hr.
  { cbn in Hdo. unfold out_of_fuel in Hdo. by simplify_eq. }
  rewrite Do_S in Hdo by done. cbn zeta in Hdo.
  destruct (served c (page_request url base page)) as [[items more]| | |] eqn:Hs.
  - destruct more.
    + destruct (Do fuel c url (int_add page 1) _) as [s3 r3] eqn:Hrec.
      simplify_eq. apply IH in Hrec as (n & Hn & Hall & Hstop); [|by apply same_but_page_insert|done].
      exists (S n). split; [lia|]. split; [apply all_more_S; eauto|done].
    + exists 0. split; [lia|]. split; [intros k ?; lia|].
      intros items'. cbn. by rewrite Hs.
  - exists 0. split; [lia|]. split; [intros k ?; lia|]. intros items'. cbn. by rewrite Hs.
  - exists 0. split; [lia|]. split; [intros k ?; lia|]. intros items'. cbn. by rewrite Hs.
  - by apply served_not_out_of_fuel in Hs.
Qed.

(** A property of [*top5] that every merge keeps is kept by [Do], however
    the run ends and however much fuel it has. *)
Lemma Do_top5_invariant (P : list Items → Prop) :
  (∀ l items top, unanswered [] l = Some items → P top → P (merge items top)) →
  ∀ fuel page s, same_but_page (params s) base → P (top5 s) →
  P (top5 (Do fuel c url page s).1).
Proof.
  intros Hmerge. induction fuel as [|fuel IH]; intros page s Hp HP; [done|].
  rewrite Do_S by done. cbn zeta.
  destruct (served c (page_request url base page)) as [[items more]| | |] eqn:Hs;
    try (by destruct s).
  apply served_Ok in Hs as (qr & _ & Hun & _).
  assert (P (merge items (top5 s))) as HP' by eauto.
  destruct more; [|by destruct s].
  specialize (IH (int_add page 1) (set_top5 (merge items (top5 s)) (after_send page s))).
  destruct (Do fuel c url (int_add page 1) _) as [s3 r3].
  cbn in *. destruct s3; cbn in *. apply IH; [|by destruct s].
  destruct s; cbn. by apply same_but_page_insert.
Qed.
End Run.

(** ** The filter and the merge *)

Lemma unanswered_filter l : ∀ acc,
  unanswered acc (Some <$> l) = Some (acc ++ filter (λ i, IsAnswered i = false) l).
Proof.
  induction l as [|i l IH]; intros acc; cbn [fmap list_fmap unanswered].
  - by rewrite app_nil_r.
  - rewrite filter_cons. destruct (IsAnswered i) eqn:Hi; cbn [negb].
    + rewrite IH. by rewrite decide_False by done.
    + rewrite IH. rewrite decide_True by done. by rewrite <- app_assoc.
Qed.

Lemma unanswered_Some l : ∀ acc kept,
  unanswered acc l = Some kept →
  ∃ l', l = Some <$> l' ∧ kept = acc ++ filter (λ i, IsAnswered i = false) l'.
Proof.
  induction l as [|[i|] l IH]; intros acc kept; cbn [unanswered].
  - intros [= <-]. exists []. by rewrite app_nil_r.
  - intros Hk. destruct (IsAnswered i) eqn:Hi; cbn [negb] in Hk;
      apply IH in Hk as (l' & -> & ->); exists (i :: l'); rewrite filter_cons.
    + by rewrite decide_False by (by rewrite Hi).
    + rewrite decide_True by done. by rewrite <- app_assoc.
  - done.
Qed.

Lemma unanswered_kept l kept :
  unanswered [] l = Some kept → unanswered_only kept.
Proof.
  intros (l' & -> & ->)%unanswered_Some. apply Forall_forall.
  intros i Hi. cbn in Hi. by apply list_elem_of_filter in Hi as [? _].
Qed.

Lemma sorted_take {A} (R : relation A) n l :
  StronglySorted R l → StronglySorted R (take n l).
Proof.
  intros Hl. rewrite <- (take_drop n l) in Hl. by apply StronglySorted_app_1_l in Hl.
Qed.

Lemma sorted_weaken {A} (R1 R2 : relation A) l :
  (∀ x y, R1 x y → R2 x y) → StronglySorted R1 l → StronglySorted R2 l.
Proof.
  intros HR. induction 1 as [|x l Hs IH Hx]; constructor; [done|].
  eapply Forall_impl; [done|]. cbn. eauto.
Qed.

Section Merge.
Context `{SortSlice}.

Lemma sort_Slice_length {A} (less : A → A → bool) l :
  length (sort_Slice less l) = length l.
Proof. by rewrite sort_Slice_perm. Qed.

Lemma sort_Slice_descending l : descending (sort_Slice by_views l).
Proof.
  eapply sorted_weaken; [|apply sort_Slice_ordered, by_views_strict_weak].
  intros a b. cbn. unfold by_views. rewrite Z.gtb_ltb, Z.ltb_ge. lia.
Qed.

(** Whatever [sort.Slice] does with ties, the view counts come out in one
    order only. *)
Lemma sort_Slice_views l :
  views (sort_Slice by_views l) = insertionSort Z.gtb (views l).
Proof.
  apply (StronglySorted_unique_strong (λ x y : Z, (y >? x)%Z = false)).
  - intros x y _ _. rewrite !Z.gtb_ltb, !Z.ltb_ge. lia.
  - unfold views. eapply StronglySorted_fmap;
      [|apply sort_Slice_ordered, by_views_strict_weak]. done.
  - apply insertionSort_ordered, Zgtb_strict_weak.
  - unfold views. by rewrite sort_Slice_perm, insertionSort_perm.
Qed.

Lemma merge_short (items top : list Items) :
  (length (items ++ top) ≤ 5)%nat → merge items top = top.
Proof.
  intros Hle. unfold merge. rewrite sort_Slice_length.
  by rewrite (proj2 (Nat.ltb_ge _ _) Hle).
Qed.

Lemma merge_long (items top : list Items) :
  (5 < length (items ++ top))%nat →
  merge items top = take 5 (sort_Slice by_views (items ++ top)).
Proof.
  intros Hlt. unfold merge. rewrite sort_Slice_length.
  by rewrite (proj2 (Nat.ltb_lt _ _) Hlt).
Qed.

Lemma merge_cases (items top : list Items) :
  ((length (items ++ top) ≤ 5)%nat ∧ merge items top = top)
  ∨ ((5 < length (items ++ top))%nat
     ∧ merge items top = take 5 (sort_Slice by_views (items ++ top))).
Proof.
  destruct (le_lt_dec (length (items ++ top)) 5);
    [left|right]; auto using merge_short, merge_long.
Qed.

Lemma merge_length (items top : list Items) :
  length (merge items top) = if (5 <? length (items ++ top))%nat then 5 else length top.
Proof.
  destruct (merge_cases items top) as [[Hl ->]|[Hl ->]].
  - by rewrite (proj2 (Nat.ltb_ge _ _) Hl).
  - rewrite (proj2 (Nat.ltb_lt _ _) Hl), length_take, sort_Slice_length. lia.
Qed.

Lemma merge_views (items top : list Items) :
  views (merge items top) =
    if (5 <? length (items ++ top))%nat
    then take 5 (insertionSort Z.gtb (views (items ++ top)))
    else views top.
Proof.
  destruct (merge_cases items top) as [[Hl ->]|[Hl ->]].
  - by rewrite (proj2 (Nat.ltb_ge _ _) Hl).
  - rewrite (proj2 (Nat.ltb_lt _ _) Hl). unfold views at 1.
    rewrite fmap_take. f_equal. apply sort_Slice_views.
Qed.

Lemma merge_descending items top :
  descending top → descending (merge items top).
Proof.
  intros Htop. destruct (merge_cases items top) as [[_ ->]|[_ ->]]; [done|].
  apply sorted_take, sort_Slice_descending.
Qed.

Lemma merge_elem x items top :
  x ∈ merge items top → x ∈ items ∨ x ∈ top.
Proof.
  destruct (merge_cases items top) as [[_ ->]|[_ ->]]; [by right|].
  intros Hx%subseteq_take. rewrite sort_Slice_perm in Hx.
  by apply elem_of_app in Hx.
Qed.

Lemma merge_unanswered items top :
  unanswered_only items → unanswered_only top →
  unanswered_only (merge items top).
Proof.
  unfold unanswered_only. rewrite !Forall_forall. intros Hi Ht x Hx.
  apply merge_elem in Hx as [?|?]; auto.
Qed.
End Merge.

(** ** Runs of GetTop5Questions *)

Lemma int_add_small x : (int_min ≤ x + 1 ≤ int_max)%Z → int_add x 1 = (x + 1)%Z.
Proof.
  unfold int_min, int_max, int_add, int_wrap. intros Hx.
  rewrite Z.mod_small; lia.
Qed.

Lemma page_from_small n : ∀ page,
  (int_min ≤ page)%Z → (page + Z.of_nat n ≤ int_max)%Z →
  page_from page n = (page + Z.of_nat n)%Z.
Proof.
  induction n as [|n IH]; intros page Hlo Hhi; cbn [page_from]; [lia|].
  rewrite int_add_small by lia. rewrite IH; lia.
Qed.

Lemma pages_from_small n : ∀ page,
  (int_min ≤ page)%Z → (page + Z.of_nat n ≤ int_max + 1)%Z →
  pages_from page n = (λ k, (page + Z.of_nat k)%Z) <$> seq 0 n.
Proof.
  induction n as [|n IH]; intros page Hlo Hhi; cbn [pages_from seq fmap list_fmap]; [done|].
  f_equal; [lia|]. destruct n as [|n]; [done|].
  rewrite int_add_small by lia. rewrite IH by lia.
  rewrite <- seq_shift, <- list_fmap_compose.
  apply list_fmap_ext. intros _ k _. cbn. lia.
Qed.

Lemma length_pages_from n : ∀ page, length (pages_from page n) = n.
Proof. induction n as [|n IH]; intros page; cbn; [done|]. by rewrite IH. Qed.

Lemma fetched_error c req e :
  fetched c req = inl e → ∃ msg, e = TransportError msg ∨ e = DecodeError msg.
Proof.
  unfold fetched. destruct (client c req) as [msg|resp]; [intros [= <-]; eauto|].
  destruct (RespBody resp) as [msg|[msg|qr]]; cbn; [intros [= <-]; eauto..|done].
Qed.

Lemma served_Err c req e : served c req = Err e → fetched c req = inl e.
Proof.
  unfold served. destruct (fetched c req) as [e'|qr]; [by intros [= ->]|].
  by destruct (unanswered [] (qrItems qr)).
Qed.

Section Runs.
Context `{SortSlice} (dflt : http_Client) (t1 t2 : Z) (inTitle tagged : string).

Local Abbreviation c := (api_client dflt).
Local Abbreviation base := (initial_params t1 t2 inTitle tagged).
Local Abbreviation s0 := (initial_state t1 t2 inTitle tagged).

Lemma api_burst : (1 ≤ burst (Ratelimiter c))%Z.
Proof. done. Qed.

Lemma GetTop5Questions_Do fuel :
  GetTop5Questions fuel dflt t1 t2 inTitle tagged =
    let '(s, r) := Do fuel c search_url 1 s0 in
    (s, match r with
        | Ok _ => Ok (top5 s)
        | Err e => Err e
        | Panic => Panic
        | OutOfFuel => OutOfFuel
        end).
Proof.
  unfold GetTop5Questions, api_client.
  by destruct (Do fuel _ search_url 1 s0) as [s [[]|e| |]].
Qed.

(** The whole of a run that lasts [S n] pages. *)
Lemma GetTop5Questions_run n fuel :
  all_more c search_url base 1 n → stops_at c search_url base 1 n → n < fuel →
  GetTop5Questions fuel dflt t1 t2 inTitle tagged =
    (mkState (top_after c search_url base (S n) 1 [])
             (<["page" := strconv_Itoa (page_from 1 n)]> base)
             (page_request search_url base <$> pages_from 1 (S n))
             0 (S n),
     match served c (page_request search_url base (page_from 1 n)) with
     | Ok _ => Ok (top_after c search_url base (S n) 1 [])
     | Err e => Err e
     | Panic => Panic
     | OutOfFuel => OutOfFuel
     end).
Proof.
  intros Hall Hstop Hlt. rewrite GetTop5Questions_Do.
  rewrite (Do_run c search_url base api_burst n) by done.
  by destruct (served c _) as [[]|e| |].
Qed.

Lemma GetTop5Questions_ends fuel s r :
  GetTop5Questions fuel dflt t1 t2 inTitle tagged = (s, r) → r ≠ OutOfFuel →
  ∃ n, n < fuel ∧ all_more c search_url base 1 n ∧ stops_at c search_url base 1 n.
Proof.
  rewrite GetTop5Questions_Do.
  destruct (Do fuel c search_url 1 s0) as [s' r'] eqn:Hdo. intros [= <- <-] Hr.
  eapply (Do_ends c search_url base api_burst); [|done|by destruct r'].
  done.
Qed.

Lemma GetTop5Questions_invariant (P : list Items → Prop) fuel :
  (∀ l items top, unanswered [] l = Some items → P top → P (merge items top)) →
  P [] →
  P (top5 (GetTop5Questions fuel dflt t1 t2 inTitle tagged).1)
  ∧ ∀ l, (GetTop5Questions fuel dflt t1 t2 inTitle tagged).2 = Ok l → P l.
Proof.
  intros Hmerge Hnil. rewrite GetTop5Questions_Do.
  pose proof (Do_top5_invariant c search_url base api_burst P Hmerge fuel 1 s0
                (same_but_page_refl _) Hnil) as HP.
  destruct (Do fuel c search_url 1 s0) as [s' r']. cbn in *.
  split; [done|]. by destruct r'; intros l [= <-].
Qed.
End Runs.

(** ** The results of the spec's scenarios *)

Section Scenarios.
Context `{SortSlice} (dflt : http_Client) (t1 t2 : Z) (inTitle tagged : string).

Local Abbreviation c := (api_client dflt).
Local Abbreviation base := (initial_params t1 t2 inTitle tagged).
Local Abbreviation page := (api_page dflt t1 t2 inTitle tagged).

Lemma views_length (l : list Items) (vs : list Z) :
  views l = vs → length l = length vs.
Proof. intros <-. unfold views. by rewrite length_fmap. Qed.

(** C1, on the code as it is: a single page whose unanswered items have
    the view counts 1, 2, 3 and whose [has_more] is false makes
    [GetTop5Questions] return the empty array, not the three items:
    line 98 assigns [*top5] only when more than five candidates are at
    hand, and nothing assigns it otherwise. *)
Theorem three_unanswered_items_yield_nothing (items : list Items) (fuel : nat) :
  page 1%Z = Ok (items, false) →
  views items = [1; 2; 3]%Z →
  0 < fuel →
  (GetTop5Questions fuel dflt t1 t2 inTitle tagged).2 = Ok [].
Proof.
  intros Hpage Hviews Hfuel.
  rewrite (GetTop5Questions_run dflt t1 t2 inTitle tagged 0 fuel); [| |  |done].
  - cbn [snd page_from top_after]. unfold api_page in Hpage. rewrite Hpage.
    f_equal. apply merge_short. rewrite app_nil_r.
    rewrite (views_length _ _ Hviews). cbn. lia.
  - intros k Hk. lia.
  - intros items'. cbn [page_from]. unfold api_page in Hpage. by rewrite Hpage.
Qed.

(** C3: page 1 yields unanswered items with the view counts 10, 50, 5, 20,
    90, 3, 40 and announces another page; page 2 yields unanswered items
    with the view counts 200, 1 and announces none.  With fuel for two
    activations the run returns five items whose view counts are 200, 90,
    50, 40, 20, in this order, whichever way [sort.Slice] treats ties. *)
Theorem two_page_scenario (items1 items2 : list Items) (fuel : nat) :
  page 1%Z = Ok (items1, true) →
  views items1 = [10; 50; 5; 20; 90; 3; 40]%Z →
  page 2%Z = Ok (items2, false) →
  views items2 = [200; 1]%Z →
  (2 ≤ fuel)%nat →
  ∃ s r, GetTop5Questions fuel dflt t1 t2 inTitle tagged = (s, Ok r)
         ∧ views r = [200; 90; 50; 40; 20]%Z.
Proof.
  intros Hp1 Hv1 Hp2 Hv2 Hfuel. unfold api_page in Hp1, Hp2.
  assert (page_from 1 1 = 2%Z) as Hsecond by done.
  assert (int_add 1 1 = 2%Z) as Hnext by done.
  rewrite (GetTop5Questions_run dflt t1 t2 inTitle tagged 1 fuel); [| | |lia].
  - rewrite Hsecond, Hp2. eexists _, _. split; [done|].
    cbn [top_after]. rewrite Hp1, Hnext, Hp2.
    assert (views (merge items1 []) = [90; 50; 40; 20; 10]%Z) as Hfirst.
    { rewrite merge_views, app_nil_r, (views_length _ _ Hv1), Hv1. done. }
    rewrite merge_views, length_app, (views_length _ _ Hv2),
      (views_length _ _ Hfirst).
    unfold views at 1. rewrite fmap_app. fold (views items2).
    fold (views (merge items1 [])). rewrite Hv2, Hfirst. done.
  - intros [|k] Hk; [|lia]. cbn [page_from]. eauto.
  - intros items'. rewrite Hsecond, Hp2. done.
Qed.
End Scenarios.

Lemma three_unanswered_items_yield_nothing_witness :
  (@GetTop5Questions insertion 1 one_short_page 0 0 "git" "go").2 = Ok [].
Proof.
  apply (@three_unanswered_items_yield_nothing insertion one_short_page 0 0
           "git" "go" (question false <$> [1; 2; 3]%Z) 1).
  - vm_compute. reflexivity.
  - reflexivity.
  - lia.
Defined.

Lemma two_page_scenario_witness :
  ∃ s r, @GetTop5Questions insertion 2 two_pages 0 0 "git" "go" = (s, Ok r)
         ∧ views r = [200; 90; 50; 40; 20]%Z.
Proof.
  apply (@two_page_scenario insertion two_pages 0 0 "git" "go"
           (question false <$> [10; 50; 5; 20; 90; 3; 40]%Z)
           (question false <$> [200; 1]%Z) 2).
  - vm_compute. reflexivity.
  - reflexivity.
  - vm_compute. reflexivity.
  - reflexivity.
  - lia.
Defined.

(** ** Invariants of the accumulated slice *)

Section Invariants.
Context `{SortSlice}.

(** A limiter that refuses the wait ends the activation before anything
    else happens. *)
Lemma Do_refused fuel c url page s err :
  Wait (Ratelimiter c) Background = Some err →
  Do (S fuel) c url page s = (leave (enter s), Err err).
Proof. intros Hw. cbn [Do]. unfold frame. by rewrite Hw. Qed.

Lemma Wait_Background lim :
  Wait lim Background = None ↔ (1 ≤ burst lim)%Z.
Proof.
  unfold Wait. destruct (Z.ltb_spec (burst lim) 1); cbn; split; (done || lia).
Qed.

(** [Do_top5_invariant] for any client and any memory. *)
Lemma Do_keeps (P : list Items → Prop) :
  (∀ l items top, unanswered [] l = Some items → P top → P (merge items top)) →
  ∀ fuel c url page s, P (top5 s) → P (top5 (Do fuel c url page s).1).
Proof.
  intros Hmerge fuel c url page s HP.
  destruct (Wait (Ratelimiter c) Background) as [err|] eqn:Hw.
  - destruct fuel as [|fuel]; [done|]. rewrite (Do_refused _ _ _ _ _ _ Hw).
    by destruct s.
  - apply Wait_Background in Hw.
    by apply (Do_top5_invariant c url (params s) Hw P Hmerge).
Qed.

Lemma merge_zero_or_five items top :
  zero_or_five top → zero_or_five (merge items top).
Proof.
  unfold zero_or_five. rewrite merge_length.
  destruct (5 <? length (items ++ top))%nat; auto.
Qed.

(** C2: one page of the search URL, the one URL [Do] is called with,
    leaves [*top5] as it was unless the page's unanswered
    items and the old [*top5] together are more than five, in which case
    it becomes the first five of their sorted concatenation; so the slice
    has length 0 or 5 after every page, from any memory in which it has
    length 0 or 5, and in every run of [GetTop5Questions], however many
    pages the fuel lets it process and however it ends. *)
Theorem top5_length_zero_or_five :
  (∀ c page s items more,
     (1 ≤ burst (Ratelimiter c))%Z →
     served c (page_request search_url (params s) page) = Ok (items, more) →
     top5 (Do 1 c search_url page s).1 =
       if (5 <? length (items ++ top5 s))%nat
       then take 5 (sort_Slice by_views (items ++ top5 s))
       else top5 s)
  ∧ (∀ fuel c url page s,
       zero_or_five (top5 s) → zero_or_five (top5 (Do fuel c url page s).1))
  ∧ (∀ fuel dflt t1 t2 inTitle tagged,
       zero_or_five (top5 (GetTop5Questions fuel dflt t1 t2 inTitle tagged).1)
       ∧ ∀ l, (GetTop5Questions fuel dflt t1 t2 inTitle tagged).2 = Ok l →
              zero_or_five l).
Proof.
  split; [|split].
  - intros c page s items more Hb Hs.
    rewrite (Do_S c search_url (params s) Hb) by apply same_but_page_refl.
    rewrite Hs. cbn zeta.
    assert (top5 (leave (set_top5 (merge items (top5 s)) (after_send search_url (params s) page s)))
            = merge items (top5 s)) as Htop by done.
    unfold merge in Htop at 2. rewrite sort_Slice_length in Htop.
    destruct more; [|done]. by cbn [Do].
  - intros fuel c url page s. apply (Do_keeps zero_or_five).
    intros _ items top _. apply merge_zero_or_five.
  - intros fuel dflt t1 t2 inTitle tagged.
    apply (GetTop5Questions_invariant dflt t1 t2 inTitle tagged zero_or_five).
    + intros _ items top _. apply merge_zero_or_five.
    + by left.
Qed.

Lemma merge_within_capacity items top :
  within_capacity top → within_capacity (merge items top).
Proof.
  intros [Hlen Hdesc]. split; [|by apply merge_descending].
  rewrite merge_length. by destruct (5 <? length (items ++ top))%nat.
Qed.

(** C4: a slice of at most five items sorted by [view_count], largest
    first, is again one after any number of pages processed by [Do]; in
    every run of [GetTop5Questions] the slice is one after every page, and
    so is the array returned. *)
Theorem top5_capacity_and_order :
  (∀ fuel c url page s,
     (length (top5 s) ≤ 5)%nat → descending (top5 s) →
     (length (top5 (Do fuel c url page s).1) ≤ 5)%nat
     ∧ descending (top5 (Do fuel c url page s).1))
  ∧ (∀ fuel dflt t1 t2 inTitle tagged,
       ((length (top5 (GetTop5Questions fuel dflt t1 t2 inTitle tagged).1) ≤ 5)%nat
        ∧ descending (top5 (GetTop5Questions fuel dflt t1 t2 inTitle tagged).1))
       ∧ ∀ l, (GetTop5Questions fuel dflt t1 t2 inTitle tagged).2 = Ok l →
              (length l ≤ 5)%nat ∧ descending l).
Proof.
  split.
  - intros fuel c url page s Hlen Hdesc.
    apply (Do_keeps within_capacity); [|done].
    intros _ items top _. apply merge_within_capacity.
  - intros fuel dflt t1 t2 inTitle tagged.
    apply (GetTop5Questions_invariant dflt t1 t2 inTitle tagged within_capacity).
    + intros _ items top _. apply merge_within_capacity.
    + split; [cbn; lia|constructor].
Qed.

(** C5: the loop of lines 86-90 keeps exactly the items whose
    [IsAnswered] is false, in page order; and in every run of
    [GetTop5Questions] neither the slice, after any page, nor the array
    returned holds an item whose [IsAnswered] is true. *)
Theorem answered_items_never_returned :
  (∀ l kept,
     unanswered [] l = Some kept →
     (∃ l', l = Some <$> l' ∧ kept = filter (λ i, IsAnswered i = false) l')
     ∧ ∀ item, item ∈ kept ↔ Some item ∈ l ∧ IsAnswered item = false)
  ∧ (∀ fuel dflt t1 t2 inTitle tagged,
       unanswered_only (top5 (GetTop5Questions fuel dflt t1 t2 inTitle tagged).1)
       ∧ ∀ l, (GetTop5Questions fuel dflt t1 t2 inTitle tagged).2 = Ok l →
              ∀ item, item ∈ l → IsAnswered item ≠ true).
Proof.
  split.
  - intros l kept (l' & -> & ->)%unanswered_Some. cbn [app]. split; [eauto|].
    intros item. rewrite list_elem_of_filter, list_elem_of_fmap. split.
    + intros [? ?]. eauto.
    + intros [(i & [= ->] & ?) ?]. done.
  - intros fuel dflt t1 t2 inTitle tagged.
    destruct (GetTop5Questions_invariant dflt t1 t2 inTitle tagged
                unanswered_only fuel) as [Hs Hr].
    + intros l items top Hl. apply merge_unanswered. by eapply unanswered_kept.
    + constructor.
    + split; [done|]. intros l Hl item Hitem. apply Hr in Hl.
      unfold unanswered_only in Hl. rewrite Forall_forall in Hl.
      rewrite (Hl item Hitem). done.
Qed.
End Invariants.

(** ** Fetches and failures *)

Section Fetches.
Context `{SortSlice} (dflt : http_Client) (t1 t2 : Z) (inTitle tagged : string).

Local Abbreviation c := (api_client dflt).
Local Abbreviation base := (initial_params t1 t2 inTitle tagged).
Local Abbreviation page := (api_page dflt t1 t2 inTitle tagged).
Local Abbreviation run fuel := (GetTop5Questions fuel dflt t1 t2 inTitle tagged).
Local Abbreviation more_until := (more_until dflt t1 t2 inTitle tagged).

Lemma stops_at_last n items :
  page (page_from 1 n) = Ok (items, false) → stops_at c search_url base 1 n.
Proof. unfold api_page. intros Hp items'. by rewrite Hp. Qed.

Lemma stops_at_Err n e :
  page (page_from 1 n) = Err e → stops_at c search_url base 1 n.
Proof. unfold api_page. intros Hp items'. by rewrite Hp. Qed.

(** Enough fuel for a run whose last page is the one [n] calls down: the
    result is there, after [S n] requests. *)
Lemma GetTop5Questions_succeeds fuel n :
  more_until n →
  (∃ items, page (page_from 1 n) = Ok (items, false)) →
  n < fuel →
  ∃ s r, run fuel = (s, Ok r) ∧ length (sent s) = S n.
Proof.
  intros Hall [items Hlast] Hlt.
  rewrite (GetTop5Questions_run dflt t1 t2 inTitle tagged n fuel);
    [|done|by eapply stops_at_last|done].
  unfold api_page in Hlast. rewrite Hlast. eexists _, _. split; [done|].
  cbn [sent]. by rewrite length_fmap, length_pages_from.
Qed.

(** The slice after [n] pages is what it is after [S n] when the last of
    them is not served. *)
Lemma top_after_failed n e : ∀ p top,
  (∀ k, k < n →
     ∃ items, served c (page_request search_url base (page_from p k)) = Ok (items, true)) →
  served c (page_request search_url base (page_from p n)) = Err e →
  top_after c search_url base (S n) p top = top_after c search_url base n p top.
Proof.
  induction n as [|n IH]; intros p top Hall Hfail.
  - cbn [top_after page_from] in *. by rewrite Hfail.
  - cbn [top_after page_from] in *.
    destruct (Hall 0) as [items Hp]; [lia|]. cbn [page_from] in Hp. rewrite Hp.
    apply IH; [|done]. intros k Hk. apply (Hall (S k)). lia.
Qed.

(** Enough fuel for a run whose fetch of the page [n] calls down fails. *)
Lemma GetTop5Questions_fails fuel n e :
  more_until n → page (page_from 1 n) = Err e → n < fuel →
  ∃ s, run fuel = (s, Err e)
       ∧ sent s = page_request search_url base <$> pages_from 1 (S n)
       ∧ length (sent s) = S n
       ∧ top5 s = top_after c search_url base n 1 [].
Proof.
  intros Hall Hfail Hlt.
  rewrite (GetTop5Questions_run dflt t1 t2 inTitle tagged n fuel);
    [|done|by eapply stops_at_Err|done].
  unfold api_page in Hfail. rewrite Hfail. eexists. split; [done|].
  cbn [sent top5]. split; [done|].
  split; [by rewrite length_fmap, length_pages_from|].
  by apply (top_after_failed n e).
Qed.

(** C6: a run that returns a result sent exactly one request for each of
    the pages up to and including the first one whose [has_more] is
    false, in page order, and none else; and when the pages before the
    one [n] calls down announce another and that one does not, any fuel
    above [n] gives such a run, with [S n] requests.  In particular one
    request is sent when page 1 has [has_more] false.  The page numbers
    are 1, 2, ... as long as they fit an [int]. *)
Theorem fetch_count (fuel : nat) :
  (∀ s r, run fuel = (s, Ok r) →
     ∃ n, n < fuel ∧ more_until n
          ∧ (∃ items, page (page_from 1 n) = Ok (items, false))
          ∧ sent s = page_request search_url base <$> pages_from 1 (S n)
          ∧ length (sent s) = S n)
  ∧ (∀ n, more_until n →
          (∃ items, page (page_from 1 n) = Ok (items, false)) →
          n < fuel →
          ∃ s r, run fuel = (s, Ok r) ∧ length (sent s) = S n)
  ∧ ((∃ items, page 1%Z = Ok (items, false)) → 0 < fuel →
     ∃ s r, run fuel = (s, Ok r) ∧ length (sent s) = 1)
  ∧ (∀ n, (Z.of_nat n < int_max)%Z →
          pages_from 1 (S n) = Z.of_nat <$> seq 1 (S n)).
Proof.
  pose proof (GetTop5Questions_succeeds fuel) as Hrun.
  split; [|split; [done|split]].
  - intros s r Hok.
    destruct (GetTop5Questions_ends dflt t1 t2 inTitle tagged fuel s (Ok r) Hok)
      as (n & Hlt & Hall & Hstop); [done|].
    exists n. split; [done|]. split; [done|].
    rewrite (GetTop5Questions_run dflt t1 t2 inTitle tagged n fuel) in Hok by done.
    unfold api_page.
    destruct (served c (page_request search_url base (page_from 1 n)))
      as [[items more]|e| |] eqn:Hs; try done.
    destruct more; [by destruct (Hstop items)|].
    split; [by exists items|]. injection Hok as Hmem _.
    assert (sent s = page_request search_url base <$> pages_from 1 (S n)) as ->
      by (by rewrite <- Hmem).
    split; [done|]. by rewrite length_fmap, length_pages_from.
  - intros Hfirst Hfuel. apply (Hrun 0); [intros k Hk; lia|done..].
  - intros n Hn. rewrite pages_from_small by (unfold int_min, int_max in *; lia).
    rewrite <- seq_shift, <- list_fmap_compose. apply list_fmap_ext.
    intros _ k _. cbn. lia.
Qed.

(** C7: when the wait of the limiter fails, [Do] returns that error and
    neither sends a request nor touches [*top5].  When the pages before
    the one [n] calls down are served and announce another, and the fetch
    of that one fails with [e] (the round trip or the decoding), then any
    fuel above [n] makes [GetTop5Questions] return [e] and no array; one
    request was sent for each page up to the failing one, none twice and
    none after; the slice accumulated from the pages before stays behind
    in memory. *)
Theorem error_is_fatal :
  (∀ fuel cl url p s err,
     Wait (Ratelimiter cl) Background = Some err →
     ∃ s', Do (S fuel) cl url p s = (s', Err err)
           ∧ sent s' = sent s ∧ top5 s' = top5 s)
  ∧ (∀ fuel n e,
       more_until n → page (page_from 1 n) = Err e → n < fuel →
       ∃ s, run fuel = (s, Err e)
            ∧ sent s = page_request search_url base <$> pages_from 1 (S n)
            ∧ length (sent s) = S n
            ∧ top5 s = top_after c search_url base n 1 []).
Proof.
  split.
  - intros fuel cl url p s err Hw. rewrite (Do_refused _ _ _ _ _ _ Hw).
    eexists. split; [done|]. by destruct s.
  - intros fuel n e. apply GetTop5Questions_fails.
Qed.
End Fetches.

(** ** What a run reads of a response *)

Lemma Do_served_only `{SortSlice} (c1 c2 : RLHTTPClient) (url : string) :
  (1 ≤ burst (Ratelimiter c1))%Z → (1 ≤ burst (Ratelimiter c2))%Z →
  (∀ req, served c1 req = served c2 req) →
  ∀ fuel page s, Do fuel c1 url page s = Do fuel c2 url page s.
Proof.
  intros Hb1 Hb2 Hsame. induction fuel as [|fuel IH]; intros page s; [done|].
  rewrite (Do_S c1 url (params s) Hb1), (Do_S c2 url (params s) Hb2)
    by apply same_but_page_refl.
  rewrite Hsame. cbn zeta.
  destruct (served c2 _) as [[items more]| | |]; try done.
  destruct more; [|done]. by rewrite IH.
Qed.

Lemma top_after_S `{SortSlice} c url base n page top :
  top_after c url base (S n) page top
  = match served c (page_request url base page) with
    | Ok (items, _) => top_after c url base n (int_add page 1) (merge items top)
    | _ => top
    end.
Proof. done. Qed.

(** The slice after [S n] pages is the merge of the last page's unanswered
    items into the slice after [n] pages. *)
Lemma top_after_last `{SortSlice} c url base n : ∀ page top items more,
  all_more c url base page n →
  served c (page_request url base (page_from page n)) = Ok (items, more) →
  top_after c url base (S n) page top
  = merge items (top_after c url base n page top).
Proof.
  induction n as [|n IH]; intros page top items more Hall Hlast.
  - cbn [page_from] in Hlast. by rewrite top_after_S, Hlast.
  - apply all_more_S in Hall as [[items0 Hfirst] Hall]. cbn [page_from] in Hlast.
    rewrite top_after_S, Hfirst.
    rewrite (IH (int_add page 1) (merge items0 top) items more Hall Hlast).
    by rewrite (top_after_S _ _ _ n page), Hfirst.
Qed.

Lemma same_but_status_served d1 d2 :
  same_but_status d1 d2 →
  ∀ req, served (api_client d1) req = served (api_client d2) req.
Proof.
  intros Hsame req. specialize (Hsame req). unfold served, fetched.
  cbn [client api_client NewClient].
  destruct (d1 req) as [msg1|resp1], (d2 req) as [msg2|resp2]; try done.
  - by subst.
  - by rewrite Hsame.
Qed.

Section Failures.
Context `{SortSlice} (dflt : http_Client) (t1 t2 : Z) (inTitle tagged : string).

Local Abbreviation c := (api_client dflt).
Local Abbreviation base := (initial_params t1 t2 inTitle tagged).
Local Abbreviation page := (api_page dflt t1 t2 inTitle tagged).
Local Abbreviation run fuel := (GetTop5Questions fuel dflt t1 t2 inTitle tagged).
Local Abbreviation more_until := (more_until dflt t1 t2 inTitle tagged).

Lemma page_transport p msg :
  dflt (page_request search_url base p) = inl msg →
  page p = Err (TransportError msg).
Proof. intros Hd. unfold api_page, served, fetched. cbn [client api_client NewClient]. by rewrite Hd. Qed.

Lemma page_body p resp :
  dflt (page_request search_url base p) = inr resp →
  page p =
    match RespBody resp with
    | NotGzip msg => Err (DecodeError msg)
    | Gzip (inl msg) => Err (DecodeError msg)
    | Gzip (inr qr) =>
        match unanswered [] (qrItems qr) with
        | None => Panic
        | Some items => Ok (items, HasMore qr)
        end
    end.
Proof.
  intros Hd. unfold api_page, served, fetched. cbn [client api_client NewClient].
  rewrite Hd. by destruct (RespBody resp) as [msg|[msg|qr]].
Qed.

(** C8, as the code has it.  When the pages before the one [n] calls down
    are served and announce another, then for the request of that page
    - a round trip that fails makes the run return that transport error;
    - a response whose body is not gzip, or does not decode, makes the run
      return that decode error, whatever its status;
    - a response whose body decodes to a last page makes the run return
      the merge of the unanswered items of that page into the slice of
      the pages before, whatever its status;
    and in each case that request is the last one sent, once.  The error
    of a run tells the two failures apart: a transport error means that
    the round trip of the last request failed, a decode error that it
    gave a response whose body is not gzip or does not decode; the two
    are never equal.  The status code is not examined: a server that
    differs in status codes only gives the same run. *)
Theorem fetch_failures_surface (fuel : nat) :
  (∀ n, more_until n → n < fuel →
     (∀ msg,
        dflt (page_request search_url base (page_from 1 n)) = inl msg →
        ∃ s, run fuel = (s, Err (TransportError msg)) ∧ length (sent s) = S n)
     ∧ (∀ resp msg,
          dflt (page_request search_url base (page_from 1 n)) = inr resp →
          RespBody resp = NotGzip msg ∨ RespBody resp = Gzip (inl msg) →
          ∃ s, run fuel = (s, Err (DecodeError msg)) ∧ length (sent s) = S n)
     ∧ (∀ resp qr items,
          dflt (page_request search_url base (page_from 1 n)) = inr resp →
          RespBody resp = Gzip (inr qr) →
          unanswered [] (qrItems qr) = Some items → HasMore qr = false →
          ∃ s, run fuel
               = (s, Ok (merge items (top_after c search_url base n 1 [])))
               ∧ length (sent s) = S n))
  ∧ (∀ s e,
       run fuel = (s, Err e) →
       ∃ n, length (sent s) = S n
            ∧ ((∃ msg, e = TransportError msg
                       ∧ dflt (page_request search_url base (page_from 1 n)) = inl msg)
               ∨ (∃ resp msg,
                    e = DecodeError msg
                    ∧ dflt (page_request search_url base (page_from 1 n)) = inr resp
                    ∧ (RespBody resp = NotGzip msg ∨ RespBody resp = Gzip (inl msg)))))
  ∧ (∀ msg msg', TransportError msg ≠ DecodeError msg')
  ∧ (∀ dflt',
       same_but_status dflt dflt' →
       GetTop5Questions fuel dflt' t1 t2 inTitle tagged = run fuel).
Proof.
  split; [|split; [|split]].
  - intros n Hall Hlt. split; [|split].
    + intros msg Hd%page_transport.
      destruct (GetTop5Questions_fails dflt t1 t2 inTitle tagged fuel n _ Hall Hd Hlt)
        as (s & Hrun & _ & Hlen & _). eauto.
    + intros resp msg Hd%page_body Hbody.
      assert (page (page_from 1 n) = Err (DecodeError msg)) as Hp
        by (by destruct Hbody as [Hb|Hb]; rewrite Hb in Hd).
      destruct (GetTop5Questions_fails dflt t1 t2 inTitle tagged fuel n _ Hall Hp Hlt)
        as (s & Hrun & _ & Hlen & _). eauto.
    + intros resp qr items Hd%page_body Hbody Hitems Hlast.
      rewrite Hbody, Hitems, Hlast in Hd. unfold api_page in Hd.
      rewrite (GetTop5Questions_run dflt t1 t2 inTitle tagged n fuel);
        [|done|intros items'; by rewrite Hd|done].
      rewrite Hd, (top_after_last c search_url base n 1 [] items false Hall Hd).
      eexists. split; [done|]. cbn [sent]. by rewrite length_fmap, length_pages_from.
  - intros s e Hrun.
    destruct (GetTop5Questions_ends dflt t1 t2 inTitle tagged fuel s (Err e) Hrun)
      as (n & Hlt & Hall & Hstop); [done|].
    rewrite (GetTop5Questions_run dflt t1 t2 inTitle tagged n fuel) in Hrun by done.
    exists n.
    destruct (served c (page_request search_url base (page_from 1 n)))
      as [[items more]|e'| |] eqn:Hs; try done.
    pose proof (f_equal fst Hrun) as Hmem. pose proof (f_equal snd Hrun) as Hres.
    cbn [fst snd] in Hmem, Hres. injection Hres as ->.
    split; [by rewrite <- Hmem; cbn [sent]; rewrite length_fmap, length_pages_from|].
    unfold served, fetched in Hs. cbn [client api_client NewClient] in Hs.
    destruct (dflt (page_request search_url base (page_from 1 n)))
      as [msg|resp] eqn:Hd.
    + injection Hs as <-. left. eauto.
    + destruct (RespBody resp) as [msg|[msg|qr]] eqn:Hb; cbn in Hs.
      * injection Hs as <-. right. exists resp, msg. eauto.
      * injection Hs as <-. right. exists resp, msg. eauto.
      * by destruct (unanswered [] (qrItems qr)).
  - done.
  - intros dflt' Hsame. rewrite !GetTop5Questions_Do.
    by rewrite (Do_served_only (api_client dflt') (api_client dflt) search_url
                  (api_burst dflt') (api_burst dflt)
                  (λ req, eq_sym (same_but_status_served _ _ Hsame req))).
Qed.

(** C9, as the code has it: the loop is the recursion of line 103.  A run
    of [S n] pages has [S n] activations of [Do] pending when its last
    page is processed, one for each page, all of which have returned when
    the run ends; [n] is bounded by the fuel only. *)
Theorem activations_grow_with_pages (fuel n : nat) :
  more_until n → stops_at c search_url base 1 n → n < fuel →
  peak (run fuel).1 = S n
  ∧ depth (run fuel).1 = 0
  ∧ length (sent (run fuel).1) = S n.
Proof.
  intros Hall Hstop Hlt.
  rewrite (GetTop5Questions_run dflt t1 t2 inTitle tagged n fuel) by done.
  cbn [fst peak depth sent]. by rewrite length_fmap, length_pages_from.
Qed.

(** C10: [Do] waits on [context.Background()], whose signal never fires,
    and [GetTop5Questions] builds the limiter with a burst of 30, so the
    wait returns no error; an error returned by [GetTop5Questions] is
    one of the round trip or of the decoding, never one of the limiter. *)
Theorem wait_never_fails :
  ctx_fired Background = false
  ∧ (∀ lim, (1 ≤ burst lim)%Z → Wait lim Background = None)
  ∧ Wait (Ratelimiter c) Background = None
  ∧ (∀ fuel s e,
       run fuel = (s, Err e) →
       (∃ msg, e = TransportError msg ∨ e = DecodeError msg)
       ∧ e ≠ RateLimitCancelled ∧ ∀ msg, e ≠ RateLimitRefused msg).
Proof.
  split; [done|]. split; [by intros lim ?%Wait_Background|]. split; [done|].
  intros fuel s e Hrun.
  destruct (GetTop5Questions_ends dflt t1 t2 inTitle tagged fuel s (Err e) Hrun)
    as (n & Hlt & Hall & Hstop); [done|].
  rewrite (GetTop5Questions_run dflt t1 t2 inTitle tagged n fuel) in Hrun by done.
  destruct (served c (page_request search_url base (page_from 1 n)))
    as [[items more]|e'| |] eqn:Hs; try done.
  injection Hrun as _ ->.
  apply served_Err, fetched_error in Hs as [msg [-> | ->]];
    (split; [eauto|split; [done|by intros ?]]).
Qed.
End Failures.

(** ** The statements at concrete runs *)

Lemma top5_length_zero_or_five_witness :
  top5 (@Do insertion 1 (api_client two_pages) search_url 1
          (initial_state 0 0 "git" "go")).1
    = question false <$> [90; 50; 40; 20; 10]%Z
  ∧ zero_or_five
      (top5 (@Do insertion 2 (api_client two_pages) search_url 1
               (initial_state 0 0 "git" "go")).1)
  ∧ zero_or_five (question false <$> [200; 90; 50; 40; 20]%Z).
Proof.
  split; [|split].
  - etransitivity.
    + apply (proj1 (@top5_length_zero_or_five insertion)
               (api_client two_pages) 1%Z (initial_state 0 0 "git" "go")
               (question false <$> [10; 50; 5; 20; 90; 3; 40]%Z) true).
      * vm_compute. discriminate.
      * vm_compute. reflexivity.
    + vm_compute. reflexivity.
  - apply (proj1 (proj2 (@top5_length_zero_or_five insertion))).
    left. reflexivity.
  - apply (proj2 (proj2 (proj2 (@top5_length_zero_or_five insertion))
                    2 two_pages 0%Z 0%Z "git" "go")).
    vm_compute. reflexivity.
Defined.

Lemma top5_capacity_and_order_witness :
  ((length (top5 (@Do insertion 2 (api_client two_pages) search_url 1
                    (initial_state 0 0 "git" "go")).1) ≤ 5)%nat
   ∧ descending (top5 (@Do insertion 2 (api_client two_pages) search_url 1
                         (initial_state 0 0 "git" "go")).1))
  ∧ (length (question false <$> [200; 90; 50; 40; 20]%Z) ≤ 5)%nat
  ∧ descending (question false <$> [200; 90; 50; 40; 20]%Z).
Proof.
  split.
  - apply (proj1 (@top5_capacity_and_order insertion)).
    + simpl. lia.
    + constructor.
  - apply (proj2 (proj2 (@top5_capacity_and_order insertion)
                    2 two_pages 0%Z 0%Z "git" "go")).
    vm_compute. reflexivity.
Defined.

Lemma answered_items_never_returned_witness :
  ((∃ l', [Some (question true 7); Some (question false 3)] = Some <$> l'
          ∧ [question false 3] = filter (λ i, IsAnswered i = false) l')
   ∧ ∀ item, item ∈ [question false 3]
             ↔ Some item ∈ [Some (question true 7); Some (question false 3)]
               ∧ IsAnswered item = false)
  ∧ ∀ item, item ∈ question false <$> [60; 50; 40; 30; 20]%Z →
            IsAnswered item ≠ true.
Proof.
  split.
  - apply (proj1 (@answered_items_never_returned insertion)).
    reflexivity.
  - apply (proj2 (proj2 (@answered_items_never_returned insertion)
                    1 mixed_page 0%Z 0%Z "git" "go")).
    vm_compute. reflexivity.
Defined.

Lemma more_until_two_pages : more_until two_pages 0 0 "git" "go" 1.
Proof.
  intros [|k] Hk; [|lia].
  exists (question false <$> [10; 50; 5; 20; 90; 3; 40]%Z). vm_compute. reflexivity.
Defined.

Lemma fetch_count_witness :
  (∃ n, n < 2 ∧ more_until two_pages 0 0 "git" "go" n
        ∧ (∃ items, api_page two_pages 0 0 "git" "go" (page_from 1 n) = Ok (items, false))
        ∧ sent (@GetTop5Questions insertion 2 two_pages 0 0 "git" "go").1
          = page_request search_url (initial_params 0 0 "git" "go")
              <$> pages_from 1 (S n)
        ∧ length (sent (@GetTop5Questions insertion 2 two_pages 0 0 "git" "go").1) = S n)
  ∧ (∃ s r, @GetTop5Questions insertion 2 two_pages 0 0 "git" "go" = (s, Ok r)
            ∧ length (sent s) = 2)
  ∧ (∃ s r, @GetTop5Questions insertion 1 one_short_page 0 0 "git" "go" = (s, Ok r)
            ∧ length (sent s) = 1).
Proof.
  split; [|split].
  - apply (proj1 (@fetch_count insertion two_pages 0 0 "git" "go" 2) _
             (question false <$> [200; 90; 50; 40; 20]%Z)).
    vm_compute. reflexivity.
  - apply (proj1 (proj2 (@fetch_count insertion two_pages 0 0 "git" "go" 2)) 1).
    + exact more_until_two_pages.
    + exists (question false <$> [200; 1]%Z). vm_compute. reflexivity.
    + lia.
  - apply (proj1 (proj2 (proj2 (@fetch_count insertion one_short_page 0 0 "git" "go" 1)))).
    + exists (question false <$> [1; 2; 3]%Z). vm_compute. reflexivity.
    + lia.
Defined.

Lemma more_until_unreachable : more_until second_page_unreachable 0 0 "git" "go" 1.
Proof.
  intros [|k] Hk; [|lia].
  exists (question false <$> [10; 50; 5; 20; 90; 3; 40]%Z). vm_compute. reflexivity.
Defined.

Lemma more_until_garbled : more_until second_page_garbled 0 0 "git" "go" 1.
Proof.
  intros [|k] Hk; [|lia].
  exists (question false <$> [10; 50; 5; 20; 90; 3; 40]%Z). vm_compute. reflexivity.
Defined.

Lemma error_is_fatal_witness :
  (∃ s', @Do insertion 1 no_burst_client search_url 1 (initial_state 0 0 "git" "go")
         = (s', Err (RateLimitRefused "exceeds limiter's burst"))
         ∧ sent s' = [] ∧ top5 s' = [])
  ∧ (∃ s, @GetTop5Questions insertion 2 second_page_unreachable 0 0 "git" "go"
          = (s, Err (TransportError "connection refused"))
          ∧ sent s = page_request search_url (initial_params 0 0 "git" "go")
                       <$> pages_from 1 2
          ∧ length (sent s) = 2
          ∧ top5 s = @top_after insertion (api_client second_page_unreachable)
                       search_url (initial_params 0 0 "git" "go") 1 1 []).
Proof.
  split.
  - apply (proj1 (@error_is_fatal insertion second_page_unreachable 0 0 "git" "go")
             0 no_burst_client search_url 1%Z (initial_state 0 0 "git" "go")).
    reflexivity.
  - apply (proj2 (@error_is_fatal insertion second_page_unreachable 0 0 "git" "go")
             2 1 (TransportError "connection refused")).
    + exact more_until_unreachable.
    + vm_compute. reflexivity.
    + lia.
Defined.

(** C7, shown on a run: the five items of page 1 are in memory when the
    fetch of page 2 fails, and the run returns the error alone. *)
Example partial_top5_is_dropped :
  views (top5 (@GetTop5Questions insertion 2 second_page_unreachable 0 0 "git" "go").1)
    = [90; 50; 40; 20; 10]%Z
  ∧ (@GetTop5Questions insertion 2 second_page_unreachable 0 0 "git" "go").2
    = Err (TransportError "connection refused").
Proof. split; vm_compute; reflexivity. Qed.

Lemma same_but_status_bad_request : same_but_status bad_request_with_items ok_with_items.
Proof.
  intros req. unfold bad_request_with_items, ok_with_items, serving.
  destruct (Query req !! "page"); reflexivity.
Defined.

Lemma fetch_failures_surface_witness :
  (∃ s, @GetTop5Questions insertion 2 second_page_unreachable 0 0 "git" "go"
        = (s, Err (TransportError "connection refused")) ∧ length (sent s) = 2)
  ∧ (∃ s, @GetTop5Questions insertion 2 second_page_garbled 0 0 "git" "go"
          = (s, Err (DecodeError "gzip: invalid header")) ∧ length (sent s) = 2)
  ∧ (∃ s, @GetTop5Questions insertion 1 bad_request_with_items 0 0 "git" "go"
          = (s, Ok (@merge insertion (question false <$> [6; 5; 4; 3; 2; 1]%Z)
                      (@top_after insertion (api_client bad_request_with_items)
                         search_url (initial_params 0 0 "git" "go") 0 1 [])))
          ∧ length (sent s) = 1)
  ∧ (∃ n, length (sent (@GetTop5Questions insertion 2 second_page_garbled
                          0 0 "git" "go").1) = S n
          ∧ ((∃ msg, DecodeError "gzip: invalid header" = TransportError msg
                     ∧ second_page_garbled
                         (page_request search_url (initial_params 0 0 "git" "go")
                            (page_from 1 n)) = inl msg)
             ∨ (∃ resp msg,
                  DecodeError "gzip: invalid header" = DecodeError msg
                  ∧ second_page_garbled
                      (page_request search_url (initial_params 0 0 "git" "go")
                         (page_from 1 n)) = inr resp
                  ∧ (RespBody resp = NotGzip msg ∨ RespBody resp = Gzip (inl msg)))))
  ∧ @GetTop5Questions insertion 1 ok_with_items 0 0 "git" "go"
    = @GetTop5Questions insertion 1 bad_request_with_items 0 0 "git" "go".
Proof.
  split; [|split; [|split; [|split]]].
  - apply (proj1 (proj1 (@fetch_failures_surface insertion second_page_unreachable 0 0
                           "git" "go" 2) 1 more_until_unreachable ltac:(lia))).
    vm_compute. reflexivity.
  - apply (proj1 (proj2 (proj1 (@fetch_failures_surface insertion second_page_garbled 0 0
                                  "git" "go" 2) 1 more_until_garbled ltac:(lia)))
             (mkResponse 200 (NotGzip "gzip: invalid header"))).
    + vm_compute. reflexivity.
    + left. reflexivity.
  - assert (more_until bad_request_with_items 0 0 "git" "go" 0) as Hnone
      by (intros k Hk; lia).
    apply (proj2 (proj2 (proj1 (@fetch_failures_surface insertion
                                  bad_request_with_items 0 0 "git" "go" 1)
                           0 Hnone ltac:(lia)))
             (mkResponse 400
                (Gzip (inr (mkQuestionResponse
                              (Some ∘ question false <$> [6; 5; 4; 3; 2; 1]%Z)
                              false 300 299))))
             (mkQuestionResponse (Some ∘ question false <$> [6; 5; 4; 3; 2; 1]%Z)
                false 300 299)
             (question false <$> [6; 5; 4; 3; 2; 1]%Z)).
    + vm_compute. reflexivity.
    + reflexivity.
    + reflexivity.
    + reflexivity.
  - apply (proj1 (proj2 (@fetch_failures_surface insertion second_page_garbled 0 0
                           "git" "go" 2))
             (@GetTop5Questions insertion 2 second_page_garbled 0 0 "git" "go").1).
    vm_compute. reflexivity.
  - apply (proj2 (proj2 (proj2 (@fetch_failures_surface insertion
                                  bad_request_with_items 0 0 "git" "go" 1)))).
    exact same_but_status_bad_request.
Defined.

(** C8 as written fails: every response of this server has status 400, and
    the run returns the five most viewed of its six items instead of a
    transport error. *)
Lemma status_400_is_served :
  (∃ resp, bad_request_with_items
             (page_request search_url (initial_params 0 0 "git" "go") 1) = inr resp
           ∧ StatusCode resp = 400%Z)
  ∧ (@GetTop5Questions insertion 1 bad_request_with_items 0 0 "git" "go").2
    = Ok (question false <$> [6; 5; 4; 3; 2]%Z)
  ∧ ∀ msg, (@GetTop5Questions insertion 1 bad_request_with_items 0 0 "git" "go").2
           ≠ Err (TransportError msg).
Proof.
  split; [|split].
  - eexists. split; vm_compute; reflexivity.
  - vm_compute. reflexivity.
  - intros msg. vm_compute. discriminate.
Qed.

Lemma more_until_three_pages : more_until three_pages 0 0 "git" "go" 2.
Proof.
  intros [|[|k]] Hk; [| |lia].
  - exists (question false <$> [1; 2]%Z). vm_compute. reflexivity.
  - exists (question false <$> [3; 4]%Z). vm_compute. reflexivity.
Defined.

Lemma activations_grow_with_pages_witness :
  peak (@GetTop5Questions insertion 3 three_pages 0 0 "git" "go").1 = 3
  ∧ depth (@GetTop5Questions insertion 3 three_pages 0 0 "git" "go").1 = 0
  ∧ length (sent (@GetTop5Questions insertion 3 three_pages 0 0 "git" "go").1) = 3.
Proof.
  apply (@activations_grow_with_pages insertion three_pages 0 0 "git" "go" 3 2).
  - exact more_until_three_pages.
  - intros items. vm_compute. discriminate.
  - lia.
Defined.

(** C9 as written fails: a loop would hold one activation of [Do] at a
    time; this run of three pages holds three at once, where a run of one
    page holds one. *)
Lemma three_pages_nest_three_activations :
  peak (@GetTop5Questions insertion 3 three_pages 0 0 "git" "go").1 = 3
  ∧ length (sent (@GetTop5Questions insertion 3 three_pages 0 0 "git" "go").1) = 3
  ∧ peak (@GetTop5Questions insertion 3 one_short_page 0 0 "git" "go").1 = 1
  ∧ ¬ (peak (@GetTop5Questions insertion 3 three_pages 0 0 "git" "go").1 ≤ 1)%nat.
Proof. repeat split; try (vm_compute; reflexivity). vm_compute. lia. Qed.

Lemma wait_never_fails_witness :
  (∃ msg, TransportError "connection refused" = TransportError msg
          ∨ TransportError "connection refused" = DecodeError msg)
  ∧ TransportError "connection refused" ≠ RateLimitCancelled
  ∧ ∀ msg, TransportError "connection refused" ≠ RateLimitRefused msg.
Proof.
  apply (proj2 (proj2 (proj2 (@wait_never_fails insertion second_page_unreachable
                                0 0 "git" "go")))
           2 (@GetTop5Questions insertion 2 second_page_unreachable 0 0 "git" "go").1).
  vm_compute. reflexivity.
Defined.

(** ** Runs of any length *)

Section AnyRun.
Context `{SortSlice} (c : RLHTTPClient) (url : string)
        (base : gmap string string).
Hypothesis burst_c : (1 ≤ burst (Ratelimiter c))%Z.

Local Abbreviation all_more := (all_more c url base).
Local Abbreviation stops_at := (stops_at c url base).

(** Fuel for [S m] activations and as many pages that announce another:
    the run is cut off, [S m] activations deep. *)
Lemma Do_out_of_fuel m : ∀ page s,
  same_but_page (params s) base →
  all_more page (S m) →
  Do (S m) c url page s =
    (mkState (top_after c url base (S m) page (top5 s))
             (<["page" := strconv_Itoa (page_from page m)]> base)
             (sent s ++ (page_request url base <$> pages_from page (S m)))
             (depth s)
             (Nat.max (peak s) (depth s + S m)),
     OutOfFuel).
Proof.
  induction m as [|m IH]; intros page s Hp Hall;
    apply all_more_S in Hall as [[items Hs] Hall];
    rewrite (Do_S c url base burst_c) by done; rewrite Hs; cbn zeta.
  - cbn [Do page_from pages_from top_after fmap list_fmap].
    rewrite Hs. unfold out_of_fuel, after_send. destruct s; memory_eq.
  - rewrite (IH (int_add page 1)); [| |done].
    + cbn [page_from pages_from top_after fmap list_fmap]. rewrite Hs.
      unfold after_send. destruct s; memory_eq. by rewrite <- app_assoc.
    + unfold after_send. destruct s; cbn.
      by apply same_but_page_insert, same_but_page_refl.
Qed.

(** A run either meets a page that stops it within its fuel, or every page
    it has fuel for announces another. *)
Lemma stops_or_goes_on fuel : ∀ page,
  (∃ n, n < fuel ∧ all_more page n ∧ stops_at page n) ∨ all_more page fuel.
Proof.
  induction fuel as [|fuel IH]; intros page; [right; intros k Hk; lia|].
  destruct (served c (page_request url base page)) as [[items more]| | |] eqn:Hs.
  1: destruct more.
  1: { destruct (IH (int_add page 1)) as [(n & Hn & Hall & Hstop)|Hall].
       - left. exists (S n). split; [lia|]. split; [apply all_more_S; eauto|done].
       - right. apply all_more_S; eauto. }
  all: left; exists 0; split; [lia|]; split; [intros k Hk; lia|];
    intros items'; cbn [page_from]; by rewrite Hs.
Qed.

(** What any run leaves in memory, however it ends. *)
Lemma Do_memory fuel page s :
  same_but_page (params s) base →
  ∃ k, (k ≤ fuel)%nat
       ∧ sent (Do fuel c url page s).1
         = sent s ++ (page_request url base <$> pages_from page k)
       ∧ top5 (Do fuel c url page s).1 = top_after c url base k page (top5 s)
       ∧ (params (Do fuel c url page s).1 = params s
          ∨ ∃ p, params (Do fuel c url page s).1 = <["page" := strconv_Itoa p]> base)
       ∧ depth (Do fuel c url page s).1 = depth s.
Proof.
  intros Hp. destruct (stops_or_goes_on fuel page) as [(n & Hn & Hall & Hstop)|Hall].
  - exists (S n). rewrite (Do_run c url base burst_c n) by done. cbn.
    repeat split; eauto with lia.
  - destruct fuel as [|m].
    + exists 0. cbn. rewrite app_nil_r. repeat split; eauto with lia.
    + exists (S m). rewrite Do_out_of_fuel by done. cbn. repeat split; eauto with lia.
Qed.
End AnyRun.

Lemma unanswered_nil_item l : ∀ acc, None ∈ l → unanswered acc l = None.
Proof.
  induction l as [|[i|] l IH]; intros acc Hin; cbn [unanswered].
  - by apply not_elem_of_nil in Hin.
  - apply elem_of_cons in Hin as [?|Hin]; [done|].
    destruct (negb (IsAnswered i)); by apply IH.
  - done.
Qed.

Lemma page_request_inj url base : Inj (=) (=) (page_request url base).
Proof.
  intros p q Heq. injection Heq as Hq.
  apply (f_equal (λ m : gmap string string, m !! "page")) in Hq.
  rewrite !lookup_insert_eq in Hq. injection Hq as Hq.
  by apply (inj pretty) in Hq.
Qed.

(** [Do] with a limiter that refuses leaves the memory as it was, ghost
    fields apart. *)
Lemma Do_refused_memory `{SortSlice} fuel c url page s err :
  Wait (Ratelimiter c) Background = Some err →
  sent (Do fuel c url page s).1 = sent s
  ∧ top5 (Do fuel c url page s).1 = top5 s
  ∧ params (Do fuel c url page s).1 = params s.
Proof.
  intros Hw. destruct fuel as [|fuel]; [done|].
  rewrite (Do_refused _ _ _ _ _ _ Hw). by destruct s.
Qed.

(** ** What a run sends *)

Section Requests.
Context `{SortSlice} (dflt : http_Client) (t1 t2 : Z) (inTitle tagged : string).

Local Abbreviation c := (api_client dflt).
Local Abbreviation base := (initial_params t1 t2 inTitle tagged).
Local Abbreviation s0 := (initial_state t1 t2 inTitle tagged).
Local Abbreviation page := (api_page dflt t1 t2 inTitle tagged).
Local Abbreviation run fuel := (GetTop5Questions fuel dflt t1 t2 inTitle tagged).
Local Abbreviation more_until := (more_until dflt t1 t2 inTitle tagged).

Lemma GetTop5Questions_memory fuel :
  (run fuel).1 = (Do fuel c search_url 1 s0).1.
Proof.
  rewrite GetTop5Questions_Do. by destruct (Do fuel c search_url 1 s0).
Qed.

Lemma GetTop5Questions_sent fuel :
  ∃ k, (k ≤ fuel)%nat
       ∧ sent (run fuel).1 = page_request search_url base <$> pages_from 1 k.
Proof.
  rewrite GetTop5Questions_memory.
  destruct (Do_memory c search_url base (api_burst dflt) fuel 1 s0)
    as (k & Hk & Hsent & _); [done|].
  exists k. split; [done|]. by rewrite Hsent.
Qed.

Lemma sent_request fuel req :
  req ∈ sent (run fuel).1 → ∃ p, req = page_request search_url base p.
Proof.
  destruct (GetTop5Questions_sent fuel) as (k & _ & ->).
  intros (p & -> & _)%list_elem_of_fmap. eauto.
Qed.

Lemma base_keys key :
  is_Some (base !! key) →
  key ∈ ["intitle"; "tagged"; "pagesize"; "fromdate"; "todate"].
Proof.
  intros [v Hv]. unfold initial_params in Hv.
  repeat (apply lookup_insert_Some in Hv as [[<- _]|[_ Hv]]; [set_solver|]).
  destruct (decide (tagged = ""));
    repeat (apply lookup_insert_Some in Hv as [[<- _]|[_ Hv]]; [set_solver|]);
    by rewrite lookup_empty in Hv.
Qed.

(** X1: whatever the fuel and however the run ends, the requests sent are
    those of consecutive pages from page 1 on, in this order, at most one
    for each unit of fuel; and as long as the page numbers fit an [int]
    they are 1, 2, ... and no request is sent twice. *)
Theorem requests_in_page_order (fuel : nat) :
  ∃ k, (k ≤ fuel)%nat
       ∧ sent (run fuel).1 = page_request search_url base <$> pages_from 1 k
       ∧ ((Z.of_nat fuel ≤ int_max)%Z →
          pages_from 1 k = Z.of_nat <$> seq 1 k
          ∧ NoDup (sent (run fuel).1)).
Proof.
  destruct (GetTop5Questions_sent fuel) as (k & Hk & Hsent).
  exists k. split; [done|]. split; [done|]. intros Hfuel.
  assert (pages_from 1 k = Z.of_nat <$> seq 1 k) as Hpages.
  { rewrite pages_from_small by (unfold int_min, int_max in *; lia).
    rewrite <- seq_shift, <- list_fmap_compose. apply list_fmap_ext.
    intros _ i _. cbn. lia. }
  split; [done|]. rewrite Hsent, Hpages.
  apply (NoDup_fmap_2 (page_request search_url base) (Inj0:=page_request_inj search_url base)).
  apply (NoDup_fmap_2 _), NoDup_seq.
Qed.

Lemma base_lookup_tagged :
  base !! "tagged" = if decide (tagged = "") then None else Some tagged.
Proof.
  unfold initial_params. destruct (decide (tagged = "")); by simplify_map_eq.
Qed.

(** X2: every request of a run is a GET for the search URL that accepts
    gzip; its parameters are the title, the page size 100, the two dates a
    year apart from the clock readings, the page number, and the tag
    exactly when the tag is not the empty string; there is no other
    parameter. *)
Theorem request_parameters (fuel : nat) (req : Request) :
  req ∈ sent (run fuel).1 →
  Method req = "GET" ∧ URL req = search_url
  ∧ Header req !! "Accept-Encoding" = Some "gzip"
  ∧ Header req !! "Content-Type" = Some "application/json"
  ∧ Query req !! "intitle" = Some inTitle
  ∧ Query req !! "tagged" = (if decide (tagged = "") then None else Some tagged)
  ∧ Query req !! "pagesize" = Some "100"
  ∧ Query req !! "fromdate" = Some (strconv_FormatInt10 (t1 - 31536000))
  ∧ Query req !! "todate" = Some (strconv_FormatInt10 t2)
  ∧ (∃ p, Query req !! "page" = Some (strconv_Itoa p))
  ∧ ∀ key, is_Some (Query req !! key) →
           key ∈ ["intitle"; "tagged"; "pagesize"; "fromdate"; "todate"; "page"].
Proof.
  intros (p & ->)%sent_request. cbn [Method URL Header Query page_request].
  repeat split; try done.
  - rewrite lookup_insert_ne by done. unfold initial_params.
    destruct (decide (tagged = "")); by simplify_map_eq.
  - rewrite lookup_insert_ne by done. apply base_lookup_tagged.
  - rewrite lookup_insert_ne by done. unfold initial_params.
    destruct (decide (tagged = "")); by simplify_map_eq.
  - rewrite lookup_insert_ne by done. unfold initial_params.
    destruct (decide (tagged = "")); by simplify_map_eq.
  - rewrite lookup_insert_ne by done. unfold initial_params.
    destruct (decide (tagged = "")); by simplify_map_eq.
  - exists p. by rewrite lookup_insert_eq.
  - intros key [<-|[_ Hv]]%lookup_insert_is_Some; [set_solver|].
    apply base_keys in Hv.
    change (key ∈ ["intitle"; "tagged"; "pagesize"; "fromdate"; "todate"] ++ ["page"]).
    apply elem_of_app. by left.
Qed.

(** X5: while every page announces another the run does not end: fuel for
    [fuel] activations is used up, by then [fuel] requests were sent and
    [fuel] activations of [Do] were pending, and no result is there. *)
Theorem never_stops_while_more (fuel : nat) :
  more_until fuel →
  (run fuel).2 = OutOfFuel
  ∧ length (sent (run fuel).1) = fuel
  ∧ peak (run fuel).1 = fuel.
Proof.
  intros Hall. rewrite GetTop5Questions_Do. destruct fuel as [|m]; [done|].
  rewrite (Do_out_of_fuel c search_url base (api_burst dflt) m) by done.
  cbn. by rewrite length_fmap, length_pages_from.
Qed.

(** A run that ends, with a result, an error or a panic, ends in the
    same way and in the same memory with any larger fuel. *)
Lemma more_fuel_same_run (fuel fuel' : nat) s r :
  run fuel = (s, r) → r ≠ OutOfFuel → (fuel ≤ fuel')%nat →
  run fuel' = (s, r).
Proof.
  intros Hrun Hr Hle.
  destruct (GetTop5Questions_ends dflt t1 t2 inTitle tagged fuel s r Hrun Hr)
    as (n & Hn & Hall & Hstop).
  rewrite (GetTop5Questions_run dflt t1 t2 inTitle tagged n fuel) in Hrun by done.
  rewrite (GetTop5Questions_run dflt t1 t2 inTitle tagged n fuel') by (done || lia).
  done.
Qed.

(** X6: a page with a nil item among its items makes the run panic, once
    the request for that page is sent; no later page is asked for. *)
Theorem nil_item_panics (fuel n : nat) resp qr :
  more_until n →
  dflt (page_request search_url base (page_from 1 n)) = inr resp →
  RespBody resp = Gzip (inr qr) →
  None ∈ qrItems qr →
  n < fuel →
  ∃ s, run fuel = (s, Panic) ∧ length (sent s) = S n.
Proof.
  intros Hall Hd Hbody Hnil Hlt.
  assert (page (page_from 1 n) = Panic) as Hp.
  { rewrite (page_body dflt t1 t2 inTitle tagged _ _ Hd), Hbody.
    by rewrite unanswered_nil_item. }
  unfold api_page in Hp.
  rewrite (GetTop5Questions_run dflt t1 t2 inTitle tagged n fuel);
    [|done|intros items'; by rewrite Hp|done].
  rewrite Hp. eexists. split; [done|].
  cbn [sent]. by rewrite length_fmap, length_pages_from.
Qed.
End Requests.

(** X3: [Do] writes to no key of the shared map but ["page"]: whatever the
    client, the fuel and the way the run ends, every other key holds
    afterwards what it held before. *)
Theorem params_only_page_written `{SortSlice} (fuel : nat) (c : RLHTTPClient)
    (url : string) (page : Z) (s : State) (key : string) :
  key ≠ "page" →
  params (Do fuel c url page s).1 !! key = params s !! key.
Proof.
  intros Hkey. destruct (Wait (Ratelimiter c) Background) as [err|] eqn:Hw.
  - by destruct (Do_refused_memory fuel c url page s err Hw) as (_ & _ & ->).
  - apply Wait_Background in Hw.
    destruct (Do_memory c url (params s) Hw fuel page s)
      as (k & _ & _ & _ & [-> | [p ->]] & _); [done..|].
    by rewrite lookup_insert_ne.
Qed.

(** ** The five most viewed *)

Lemma filter_none {A} (P : A → Prop) `{!∀ x, Decision (P x)} (l : list A) :
  Forall (λ z, ¬ P z) l → filter P l = [].
Proof.
  induction 1 as [|z l Hz _ IH]; [done|].
  by rewrite filter_cons, decide_False.
Qed.

Lemma filter_all {A} (P : A → Prop) `{!∀ x, Decision (P x)} (l : list A) :
  Forall P l → filter P l = l.
Proof.
  induction 1 as [|z l Hz _ IH]; [done|].
  by rewrite filter_cons, decide_True, IH.
Qed.

Lemma top_five_perm res every every' :
  every ≡ₚ every' → top_five res every → top_five res every'.
Proof.
  intros Hp (Hlen & Hdesc & rest & Hrest & Hle).
  split; [done|]. split; [done|]. exists rest. split; [by rewrite Hrest|done].
Qed.

(** In a list sorted by views, fewer items have more views than the one at
    position [i] than [i] itself. *)
Lemma descending_before (l : list Items) (i : nat) (x : Items) :
  descending l → l !! i = Some x →
  (length (filter (λ z, (ViewCount x < ViewCount z)%Z) l) ≤ i)%nat.
Proof.
  intros Hdesc Hx. rewrite <- (take_drop_middle l i x Hx) in Hdesc |- *.
  apply StronglySorted_app in Hdesc as (_ & _ & Hdesc).
  apply StronglySorted_cons in Hdesc as [Hafter _].
  rewrite filter_app, (filter_none _ (x :: _)), app_nil_r.
  - etransitivity; [apply length_filter|]. rewrite length_take. lia.
  - constructor; [lia|]. eapply Forall_impl; [done|]. cbn. lia.
Qed.

Section TopFive.
Context `{SortSlice}.

(** When the merge rewrites the slice, it takes five most viewed of what
    is at hand. *)
Lemma merge_long_top_five (items top : list Items) :
  (5 < length (items ++ top))%nat → top_five (merge items top) (items ++ top).
Proof.
  intros Hlong. rewrite merge_long by done.
  pose proof (sort_Slice_descending (items ++ top)) as Hdesc.
  split; [|split].
  - rewrite length_take, sort_Slice_length. lia.
  - by apply sorted_take.
  - exists (drop 5 (sort_Slice by_views (items ++ top))).
    split; [by rewrite take_drop, sort_Slice_perm|].
    intros x y Hx Hy. rewrite <- (take_drop 5) in Hdesc.
    by apply (StronglySorted_app_1_elem_of _ _ _ x y) in Hdesc.
Qed.

(** Once the slice holds five most viewed of some items, it holds five
    most viewed of those and the new ones after a merge. *)
Lemma merge_full_top_five (items top every : list Items) :
  top_five top every → top_five (merge items top) (items ++ every).
Proof.
  intros (Hlen & Hdesc & rest & Hrest & Hle).
  destruct items as [|i items].
  { rewrite merge_short by (cbn; lia). by repeat split; eauto. }
  assert (5 < length ((i :: items) ++ top))%nat as Hlong
    by (rewrite length_app; cbn; lia).
  destruct (merge_long_top_five _ _ Hlong) as (Hlen' & Hdesc' & rest' & Hrest' & Hle').
  split; [done|]. split; [done|]. exists (rest' ++ rest). split.
  { rewrite app_assoc, Hrest', <- Hrest. by rewrite <- app_assoc. }
  intros x y Hx [Hy|Hy]%elem_of_app; [by apply Hle'|].
  destruct (Z.le_gt_cases (ViewCount y) (ViewCount x)) as [|Hless]; [done|].
  exfalso. rewrite merge_long in Hx by done.
  apply elem_of_take in Hx as (pos & Hpos & Hlt).
  pose proof (descending_before _ _ _ (sort_Slice_descending _) Hpos) as Hfew.
  rewrite sort_Slice_perm, filter_app, length_app in Hfew.
  rewrite (filter_all _ top) in Hfew; [lia|].
  apply Forall_forall. intros t Ht. specialize (Hle t y Ht Hy). lia.
Qed.
End TopFive.

Lemma first_long (f : nat → nat) (N : nat) :
  (∀ k, k < N → (f k ≤ 5)%nat)
  ∨ ∃ j, j < N ∧ (5 < f j)%nat ∧ ∀ i, i < j → (f i ≤ 5)%nat.
Proof.
  induction N as [|N [Hshort|(j & Hj & Hlong & Hbefore)]].
  - left. intros k Hk. lia.
  - destruct (le_lt_dec (f N) 5) as [HN|HN].
    + left. intros k Hk. destruct (decide (k = N)) as [->|]; [done|].
      apply Hshort. lia.
    + right. exists N. split; [lia|]. split; [done|]. intros i Hi. by apply Hshort.
  - right. exists j. split; [lia|]. done.
Qed.

Section PagesTopFive.
Context `{SortSlice} (c : RLHTTPClient) (url : string)
        (base : gmap string string).

Local Abbreviation all_served := (all_served c url base).

Lemma all_served_S page n :
  all_served page (S n) ↔
  (∃ items more, served c (page_request url base page) = Ok (items, more))
  ∧ all_served (int_add page 1) n.
Proof.
  split.
  - intros Hall. split; [apply (Hall 0); lia|].
    intros k Hk. apply (Hall (S k)). lia.
  - intros [H0 Hall] [|k] Hk; [done|]. apply Hall. lia.
Qed.

(** A full slice stays a choice of five most viewed over the pages that
    follow. *)
Lemma top_after_full n : ∀ page top every,
  all_served page n → top_five top every →
  top_five (top_after c url base n page top) (items_from c url base n page ++ every).
Proof.
  induction n as [|n IH]; intros page top every Hall Htop; [done|].
  apply all_served_S in Hall as [(items & more & Hs) Hall].
  cbn [top_after items_from]. unfold page_items. rewrite Hs.
  eapply top_five_perm; [|apply IH; [done|by apply (merge_full_top_five items)]].
  rewrite !app_assoc. f_equiv. apply Permutation_app_comm.
Qed.

(** Pages of at most five unanswered items leave an empty slice empty. *)
Lemma top_after_short n : ∀ page,
  all_served page n →
  (∀ k, k < n → (length (page_items c url base (page_from page k)) ≤ 5)%nat) →
  top_after c url base n page [] = [].
Proof.
  induction n as [|n IH]; intros page Hall Hshort; [done|].
  apply all_served_S in Hall as [(items & more & Hs) Hall].
  pose proof (Hshort 0 ltac:(lia)) as Hfirst.
  cbn [page_from] in Hfirst. unfold page_items in Hfirst. rewrite Hs in Hfirst.
  cbn [top_after]. rewrite Hs, merge_short by (by rewrite app_nil_r).
  apply IH; [done|]. intros k Hk. apply (Hshort (S k)). lia.
Qed.

(** The slice after [n] pages, of which the one [j] calls down is the first
    with more than five unanswered items. *)
Lemma top_after_first_long j : ∀ n page,
  all_served page n → j < n →
  (∀ k, k < j → (length (page_items c url base (page_from page k)) ≤ 5)%nat) →
  (5 < length (page_items c url base (page_from page j)))%nat →
  top_five (top_after c url base n page [])
           (items_from c url base (n - j) (page_from page j)).
Proof.
  induction j as [|j IH]; intros [|n] page Hall Hj Hshort Hlong; try lia;
    apply all_served_S in Hall as [(items & more & Hs) Hall].
  - cbn [page_from] in *. rewrite Nat.sub_0_r. cbn [top_after items_from].
    unfold page_items in *. rewrite Hs in *.
    eapply top_five_perm;
      [|apply (top_after_full n _ (merge items []) items); [done|]].
    + apply Permutation_app_comm.
    + rewrite <- (app_nil_r items) at 2. apply merge_long_top_five.
      by rewrite app_nil_r.
  - pose proof (Hshort 0 ltac:(lia)) as Hfirst.
    cbn [page_from] in Hfirst. unfold page_items in Hfirst. rewrite Hs in Hfirst.
    cbn [top_after page_from]. rewrite Hs, merge_short by (by rewrite app_nil_r).
    replace (S n - S j) with (n - j) by lia.
    apply IH; [done|lia| |done]. intros k Hk. apply (Hshort (S k)). lia.
Qed.
End PagesTopFive.

Section Results.
Context `{SortSlice} (dflt : http_Client) (t1 t2 : Z) (inTitle tagged : string).

Local Abbreviation c := (api_client dflt).
Local Abbreviation base := (initial_params t1 t2 inTitle tagged).
Local Abbreviation run fuel := (GetTop5Questions fuel dflt t1 t2 inTitle tagged).
Local Abbreviation api_items := (api_items dflt t1 t2 inTitle tagged).

(** A run that returns a result: its pages were all served, and the result
    is the slice after them. *)
Lemma finished_run fuel s r :
  run fuel = (s, Ok r) →
  ∃ n, n < fuel ∧ length (sent s) = S n
       ∧ all_served c search_url base 1 (S n)
       ∧ r = top_after c search_url base (S n) 1 [].
Proof.
  intros Hok.
  destruct (GetTop5Questions_ends dflt t1 t2 inTitle tagged fuel s (Ok r) Hok)
    as (n & Hlt & Hall & Hstop); [done|].
  exists n. split; [done|].
  rewrite (GetTop5Questions_run dflt t1 t2 inTitle tagged n fuel) in Hok by done.
  destruct (served c (page_request search_url base (page_from 1 n)))
    as [[items more]|e| |] eqn:Hs; try done.
  injection Hok as Hmem Hr.
  split; [by rewrite <- Hmem; cbn; rewrite length_fmap, length_pages_from|].
  split; [|done]. intros k Hk.
  destruct (decide (k = n)) as [->|Hne]; [eauto|].
  destruct (Hall k) as [items' Hk']; [lia|]. eauto.
Qed.

(** X8: a run that returns a result returns the empty array exactly when
    none of the pages it fetched holds more than five unanswered items,
    however many such items the pages hold together. *)
Theorem empty_unless_a_page_has_six (fuel : nat) s r :
  run fuel = (s, Ok r) →
  r = [] ↔ ∀ k, k < length (sent s) → (length (api_items k) ≤ 5)%nat.
Proof.
  intros (n & _ & -> & Hall & ->)%finished_run. split.
  - intros Hnil.
    destruct (first_long (λ k, length (api_items k)) (S n))
      as [Hshort|(j & Hj & Hlong & Hbefore)]; [done|].
    pose proof (top_after_first_long c search_url base j (S n) 1 Hall Hj Hbefore Hlong)
      as (Hlen & _).
    by rewrite Hnil in Hlen.
  - intros Hshort. by apply top_after_short.
Qed.

(** X9: when the page [j] calls down is the first of a finished run with
    more than five unanswered items, the result is a choice of five most
    viewed among the unanswered items of that page and of all later ones;
    the items of the pages before it are not among the candidates. *)
Theorem result_is_top_five_from_first_long_page (fuel j : nat) s r :
  run fuel = (s, Ok r) →
  j < length (sent s) →
  (∀ k, k < j → (length (api_items k) ≤ 5)%nat) →
  (5 < length (api_items j))%nat →
  top_five r (items_from c search_url base (length (sent s) - j) (page_from 1 j)).
Proof.
  intros (n & _ & -> & Hall & ->)%finished_run Hj Hshort Hlong.
  by apply top_after_first_long.
Qed.
End Results.

(** ** One page, ties, the query and main *)

Lemma Do_one_page `{SortSlice} c url page s items more :
  (1 ≤ burst (Ratelimiter c))%Z →
  served c (page_request url (params s) page) = Ok (items, more) →
  top5 (Do 1 c url page s).1 = merge items (top5 s).
Proof.
  intros Hb Hs. rewrite (Do_S c url (params s) Hb) by apply same_but_page_refl.
  rewrite Hs. cbn zeta. destruct more; [|done]. by cbn [Do].
Qed.

(** X7: a page of the search URL that brings the candidates, its
    unanswered items and the old slice, above five leaves in the slice a
    choice of five most viewed of the candidates, whatever the old slice
    was. *)
Theorem page_takes_five_most_viewed `{SortSlice} c page s items more :
  (1 ≤ burst (Ratelimiter c))%Z →
  served c (page_request search_url (params s) page) = Ok (items, more) →
  (5 < length (items ++ top5 s))%nat →
  top_five (top5 (Do 1 c search_url page s).1) (items ++ top5 s).
Proof.
  intros Hb Hs Hlong. rewrite (Do_one_page _ search_url _ _ _ _ Hb Hs).
  by apply merge_long_top_five.
Qed.

Lemma top_after_views (H1 H2 : SortSlice) c url base n : ∀ page top1 top2,
  views top1 = views top2 →
  views (@top_after H1 c url base n page top1)
  = views (@top_after H2 c url base n page top2).
Proof.
  induction n as [|n IH]; intros page top1 top2 Htop; [done|].
  cbn [top_after].
  destruct (served c (page_request url base page)) as [[items more]| | |]; try done.
  apply IH. rewrite !merge_views, !length_app.
  rewrite (views_length top1 _ Htop), <- (views_length top2 _ eq_refl).
  unfold views in *. by rewrite !fmap_app, Htop.
Qed.

(** X10: the view counts of the result, in their order, do not depend on
    how [sort.Slice] orders items with equal view counts: two sorts that
    both meet the contract give results with the same view counts, after
    the same requests. *)
Theorem view_counts_do_not_depend_on_ties (H1 H2 : SortSlice) (fuel : nat)
    (dflt : http_Client) (t1 t2 : Z) (inTitle tagged : string) s1 r1 :
  @GetTop5Questions H1 fuel dflt t1 t2 inTitle tagged = (s1, Ok r1) →
  ∃ s2 r2, @GetTop5Questions H2 fuel dflt t1 t2 inTitle tagged = (s2, Ok r2)
           ∧ views r1 = views r2 ∧ sent s1 = sent s2.
Proof.
  intros Hrun.
  destruct (@GetTop5Questions_ends H1 dflt t1 t2 inTitle tagged fuel s1 (Ok r1) Hrun)
    as (n & Hn & Hall & Hstop); [done|].
  rewrite (@GetTop5Questions_run H1 dflt t1 t2 inTitle tagged n fuel) in Hrun by done.
  rewrite (@GetTop5Questions_run H2 dflt t1 t2 inTitle tagged n fuel) by done.
  destruct (served _ (page_request search_url _ (page_from 1 n)))
    as [[items more]|e| |]; try done.
  pose proof (f_equal fst Hrun) as Hmem. pose proof (f_equal snd Hrun) as Hres.
  cbn [fst snd] in Hmem, Hres.
  assert (r1 = @top_after H1 (api_client dflt) search_url
                 (initial_params t1 t2 inTitle tagged) (S n) 1 []) as -> by congruence.
  eexists _, _. split; [done|]. split; [by apply top_after_views|].
  by rewrite <- Hmem.
Qed.

Lemma add_params_lookup entries : ∀ (q : gmap string (list string)) key,
  NoDup entries.*1 →
  add_params entries q !! key =
    match (list_to_map entries : gmap string string) !! key with
    | Some v => Some (default [] (q !! key) ++ [v])
    | None => q !! key
    end.
Proof.
  induction entries as [|[k v] entries IH]; intros q key Hnd; [done|].
  apply NoDup_cons in Hnd as [Hk Hnd]. cbn [add_params foldl fst snd].
  fold (add_params entries (Values_Add k v q)). rewrite IH by done.
  rewrite list_to_map_cons. unfold Values_Add.
  destruct (decide (k = key)) as [->|Hne].
  - rewrite !lookup_insert_eq.
    by rewrite (not_elem_of_list_to_map_1 _ _ Hk).
  - by rewrite !lookup_insert_ne.
Qed.

(** X4: the loop that adds the parameters to the query gives the same
    values in whichever order [range] visits the map: every parameter is
    appended once to the values its key had, and keys that are no
    parameter keep theirs.  For a request of a run this leaves the three
    parameters of the URL as they are and gives every other one the single
    value that [params] holds. *)
Theorem query_in_any_order `{SortSlice} :
  (∀ (m : gmap string string) (q : gmap string (list string)) entries key,
     entries ≡ₚ map_to_list m →
     add_params entries q !! key =
       match m !! key with
       | Some v => Some (default [] (q !! key) ++ [v])
       | None => q !! key
       end)
  ∧ (∀ fuel dflt t1 t2 inTitle tagged req entries,
       req ∈ sent (GetTop5Questions fuel dflt t1 t2 inTitle tagged).1 →
       entries ≡ₚ map_to_list (Query req) →
       add_params entries search_query
       = search_query ∪ ((λ v, [v]) <$> Query req)).
Proof.
  assert (∀ (m : gmap string string) (q : gmap string (list string)) entries key,
            entries ≡ₚ map_to_list m →
            add_params entries q !! key =
              match m !! key with
              | Some v => Some (default [] (q !! key) ++ [v])
              | None => q !! key
              end) as Hany.
  { intros m q entries key Hperm.
    assert (NoDup entries.*1) as Hnd
      by (rewrite Hperm; apply NoDup_fst_map_to_list).
    rewrite add_params_lookup by done.
    rewrite (list_to_map_proper _ _ Hnd Hperm). by rewrite list_to_map_to_list. }
  split; [done|].
  intros fuel dflt t1 t2 inTitle tagged req entries Hreq Hperm.
  apply map_eq. intros key. rewrite (Hany _ _ _ _ Hperm).
  apply sent_request in Hreq as [p ->]. cbn [Query page_request] in *.
  rewrite lookup_union, lookup_fmap.
  destruct (<["page" := strconv_Itoa p]> (initial_params t1 t2 inTitle tagged) !! key)
    as [v|] eqn:Hv; cbn.
  - assert (search_query !! key = None) as ->; [|done].
    assert (key ∈ ["intitle"; "tagged"; "pagesize"; "fromdate"; "todate"] ++ ["page"])
      as Hkey.
    { apply mk_is_Some, lookup_insert_is_Some in Hv as [<-|[_ Hv]].
      - apply elem_of_app. right. by left.
      - apply elem_of_app. left. by eapply base_keys. }
    unfold search_query. cbn in Hkey.
    repeat (apply elem_of_cons in Hkey as [->|Hkey]; [by simplify_map_eq|]).
    by apply not_elem_of_nil in Hkey.
  - by destruct (search_query !! key).
Qed.

(** X11: [main] never ends with an error value: an error of the run makes
    it panic, with nothing printed.  What it prints is an array of no or
    five unanswered questions, the most viewed first, and every request it
    sends asks for the title "git" and the tag "go". *)
Theorem main_prints_or_panics `{SortSlice} (fuel : nat) (dflt : http_Client)
    (t1 t2 : Z) :
  (∀ e, (main fuel dflt t1 t2).2 ≠ Err e)
  ∧ (∀ s e, GetTop5Questions fuel dflt t1 t2 "git" "go" = (s, Err e) →
            main fuel dflt t1 t2 = (s, Panic))
  ∧ (∀ b, (main fuel dflt t1 t2).2 = Ok b →
          zero_or_five b ∧ descending b ∧ unanswered_only b)
  ∧ (∀ req, req ∈ sent (main fuel dflt t1 t2).1 →
            Query req !! "intitle" = Some "git"
            ∧ Query req !! "tagged" = Some "go").
Proof.
  unfold main.
  pose proof (GetTop5Questions_invariant dflt t1 t2 "git" "go"
                (λ l, zero_or_five l ∧ descending l ∧ unanswered_only l) fuel) as Hinv.
  pose proof (sent_request dflt t1 t2 "git" "go" fuel) as Hsent.
  destruct (GetTop5Questions fuel dflt t1 t2 "git" "go") as [s [b|e| |]] eqn:Hrun;
    cbn [fst snd] in *.
  all: split; [done|]; split; [by intros ? ? [= <- ?]|]; split.
  all: try (by intros ? [=]).
  2,3,4,5: intros req (p & ->)%Hsent; cbn [Query page_request];
    rewrite !lookup_insert_ne by done; unfold initial_params;
    by simplify_map_eq.
  intros b' [= <-]. apply Hinv; [|repeat split; [by left|constructor|constructor]|done].
  intros l items top Hl (Hz & Hd & Hu). split; [by apply merge_zero_or_five|].
  split; [by apply merge_descending|].
  apply merge_unanswered; [by eapply unanswered_kept|done].
Qed.

(** ** The further statements at concrete runs *)

Lemma requests_in_page_order_witness :
  pages_from 1 2 = Z.of_nat <$> seq 1 2
  ∧ NoDup (sent (@GetTop5Questions insertion 2 two_pages 0 0 "git" "go").1).
Proof.
  destruct (@requests_in_page_order insertion two_pages 0 0 "git" "go" 2)
    as (k & Hk & Hsent & Hsmall).
  destruct Hsmall as [_ Hnodup]; [vm_compute; discriminate|].
  split; [reflexivity|exact Hnodup].
Defined.

Lemma request_parameters_witness :
  Query (page_request search_url (initial_params 0 0 "git" "") 1) !! "tagged"
  = (if decide ("" = "") then None else Some "").
Proof.
  apply (@request_parameters insertion one_short_page 0 0 "git" "" 1
           (page_request search_url (initial_params 0 0 "git" "") 1)).
  vm_compute. left.
Defined.

Lemma params_only_page_written_witness :
  params (@Do insertion 2 (api_client two_pages) search_url 1
            (initial_state 0 0 "git" "go")).1 !! "intitle"
  = params (initial_state 0 0 "git" "go") !! "intitle".
Proof.
  apply (@params_only_page_written insertion). discriminate.
Defined.

Lemma query_in_any_order_witness :
  add_params (map_to_list (<["page" := "1"]> (<["intitle" := "git"]> ∅)))
    (<["page" := ["0"]]> ∅) !! "page"
  = match (<["page" := "1"]> (<["intitle" := "git"]> ∅) : gmap string string) !! "page" with
    | Some v => Some (default [] ((<["page" := ["0"]]> ∅ : gmap string (list string)) !! "page") ++ [v])
    | None => (<["page" := ["0"]]> ∅ : gmap string (list string)) !! "page"
    end.
Proof.
  apply (proj1 (@query_in_any_order insertion)). reflexivity.
Defined.

Lemma more_until_endless : more_until endless 0 0 "git" "go" 3.
Proof.
  intros [|[|[|k]]] Hk; [| | |lia];
    exists (question false <$> [7]%Z); vm_compute; reflexivity.
Defined.

Lemma never_stops_while_more_witness :
  (@GetTop5Questions insertion 3 endless 0 0 "git" "go").2 = OutOfFuel
  ∧ length (sent (@GetTop5Questions insertion 3 endless 0 0 "git" "go").1) = 3
  ∧ peak (@GetTop5Questions insertion 3 endless 0 0 "git" "go").1 = 3.
Proof.
  apply (@never_stops_while_more insertion endless 0 0 "git" "go" 3).
  exact more_until_endless.
Defined.

Lemma more_fuel_same_run_witness :
  @GetTop5Questions insertion 5 two_pages 0 0 "git" "go"
  = ((@GetTop5Questions insertion 2 two_pages 0 0 "git" "go").1,
     Ok (question false <$> [200; 90; 50; 40; 20]%Z)).
Proof.
  apply (@more_fuel_same_run insertion two_pages 0 0 "git" "go" 2 5).
  - vm_compute. reflexivity.
  - discriminate.
  - lia.
Defined.

Lemma nil_item_panics_witness :
  ∃ s, @GetTop5Questions insertion 1 null_item_page 0 0 "git" "go" = (s, Panic)
       ∧ length (sent s) = 1.
Proof.
  apply (@nil_item_panics insertion null_item_page 0 0 "git" "go" 1 0
           (mkResponse 200
              (Gzip (inr (mkQuestionResponse [Some (question false 1); None]
                            false 300 299))))
           (mkQuestionResponse [Some (question false 1); None] false 300 299)).
  - intros k Hk. lia.
  - vm_compute. reflexivity.
  - reflexivity.
  - simpl. right. left.
  - lia.
Defined.

Lemma page_takes_five_most_viewed_witness :
  top_five
    (top5 (@Do insertion 1 (api_client two_pages) search_url 1
             (initial_state 0 0 "git" "go")).1)
    ((question false <$> [10; 50; 5; 20; 90; 3; 40]%Z)
       ++ top5 (initial_state 0 0 "git" "go")).
Proof.
  apply (@page_takes_five_most_viewed insertion (api_client two_pages)
           1%Z (initial_state 0 0 "git" "go") _ true).
  - vm_compute. discriminate.
  - vm_compute. reflexivity.
  - simpl. lia.
Defined.

Lemma empty_unless_a_page_has_six_witness :
  (@nil Items) = []
  ↔ ∀ k, k < length (sent (@GetTop5Questions insertion 1 one_short_page 0 0 "git" "go").1) →
         (length (api_items one_short_page 0 0 "git" "go" k) ≤ 5)%nat.
Proof.
  apply (@empty_unless_a_page_has_six insertion one_short_page 0 0 "git" "go" 1).
  vm_compute. reflexivity.
Defined.

Lemma result_is_top_five_from_first_long_page_witness :
  top_five (question false <$> [90; 50; 20; 10; 5]%Z)
    (items_from (api_client short_then_long) search_url
       (initial_params 0 0 "git" "go")
       (length (sent (@GetTop5Questions insertion 2 short_then_long 0 0 "git" "go").1) - 1)
       (page_from 1 1)).
Proof.
  apply (@result_is_top_five_from_first_long_page insertion short_then_long
           0 0 "git" "go" 2 1).
  - vm_compute. reflexivity.
  - vm_compute. lia.
  - intros [|k] Hk; [vm_compute; lia|lia].
  - vm_compute. lia.
Defined.

Lemma view_counts_do_not_depend_on_ties_witness :
  ∃ s2 r2, @GetTop5Questions reversing 1 tied_page 0 0 "git" "go" = (s2, Ok r2)
           ∧ views ((λ id, mkItems false 10 1700000000 id "") <$> [1; 2; 3; 4; 5]%Z)
             = views r2
           ∧ sent (@GetTop5Questions insertion 1 tied_page 0 0 "git" "go").1 = sent s2.
Proof.
  apply (@view_counts_do_not_depend_on_ties insertion reversing 1 tied_page
           0 0 "git" "go").
  vm_compute. reflexivity.
Defined.

(** The items themselves do depend on the order of ties. *)
Example ties_change_the_items :
  QuestionId <$> top5 (@GetTop5Questions insertion 1 tied_page 0 0 "git" "go").1
    = [1; 2; 3; 4; 5]%Z
  ∧ QuestionId <$> top5 (@GetTop5Questions reversing 1 tied_page 0 0 "git" "go").1
    = [6; 5; 4; 3; 2]%Z.
Proof. split; vm_compute; reflexivity. Qed.

Lemma main_prints_or_panics_witness :
  (@main insertion 2 second_page_unreachable 0 0
   = ((@GetTop5Questions insertion 2 second_page_unreachable 0 0 "git" "go").1, Panic))
  ∧ (zero_or_five (question false <$> [200; 90; 50; 40; 20]%Z)
     ∧ descending (question false <$> [200; 90; 50; 40; 20]%Z)
     ∧ unanswered_only (question false <$> [200; 90; 50; 40; 20]%Z)).
Proof.
  split.
  - apply (proj1 (proj2 (@main_prints_or_panics insertion 2 second_page_unreachable 0 0))
             _ (TransportError "connection refused")).
    vm_compute. reflexivity.
  - apply (proj1 (proj2 (proj2 (@main_prints_or_panics insertion 2 two_pages 0 0)))).
    vm_compute. reflexivity.
Defined.

(** X12: a run reads of a response its unanswered items, in their order,
    and its [has_more], or else the error: two servers whose responses
    agree on these give the same run, whatever the status codes, the quota
    fields and the answered questions are. *)
Theorem run_reads_items_and_has_more_only `{SortSlice} (d1 d2 : http_Client)
    (fuel : nat) (t1 t2 : Z) (inTitle tagged : string) :
  (∀ req, served (api_client d1) req = served (api_client d2) req) →
  GetTop5Questions fuel d1 t1 t2 inTitle tagged
  = GetTop5Questions fuel d2 t1 t2 inTitle tagged.
Proof.
  intros Hsame. rewrite !GetTop5Questions_Do.
  by rewrite (Do_served_only (api_client d1) (api_client d2) search_url
                (api_burst d1) (api_burst d2) Hsame).
Qed.

Lemma run_reads_items_and_has_more_only_witness :
  @GetTop5Questions insertion 1 bad_request_with_items 0 0 "git" "go"
  = @GetTop5Questions insertion 1 same_items_other_envelope 0 0 "git" "go".
Proof.
  apply (@run_reads_items_and_has_more_only insertion).
  intros req. unfold served, fetched, api_client, NewClient,
    bad_request_with_items, same_items_other_envelope, serving. simpl.
  destruct (Query req !! "page"); reflexivity.
Defined.
